(** * Notes backend ([server.js]): account directory and note store

    A shallow embedding of the Express handlers of [server.js] over a model
    of the two MongoDB collections they use, and the properties of the note
    lifecycle and of the per-user scoping proved on it. *)

From stdpp Require Import base option numbers list strings gmap fin_maps.

Local Open Scope Z_scope.

(** ** Data model *)

(** A document key ([_id], and the [userId] reference of a note). *)
Definition ObjectId := N.

(** A JavaScript [Date] holding a valid time value: milliseconds since the
    epoch. *)
Definition Date := Z.

(** A field that a stored document may not hold is an [option]: [None]
    stands for null or absent.  A field that a request body may leave out is
    an [option] too: [None] stands for the field left out ([undefined]); a
    body that gives an explicit [null] is outside the model. *)

(** [userSchema]. *)
Record User := mkUser {
  username : option string;
  password : string;
}.

(** [noteSchema].  The key [_id] is the key of the note in its collection. *)
Record Note := mkNote {
  userId : ObjectId;
  title : option string;
  content : option string;
  tags : option (list string);
  color : option string;
  isArchived : option bool;
  isTrashed : option bool;
  deletedAt : option Date;
  createdAt : Date;
  reminder : option Date;
}.

(** The database: the two collections, keyed by [_id], and the source of
    fresh [ObjectId]s. *)
Record Db := mkDb {
  users : gmap ObjectId User;
  notes : gmap ObjectId Note;
  next_oid : ObjectId;
}.

Definition empty_db : Db := mkDb ∅ ∅ 0%N.

(** ** External collaborators

    The host's time zone (used by [Date.prototype.setDate]), [bcrypt] and the
    regular-expression engine behind [$regex] are outside the program: the
    model takes them as an interface. *)
Class Host := {
  (** the offset of local time from UTC, in ms: at a UTC instant ([true])
      or at a local time value ([false]) *)
  LocalTZA : Z → bool → Z;
  (** [bcrypt.hash(data, 10)]: the salt is drawn by the library *)
  bcrypt_hash : string → string → string;
  (** [bcrypt.compare(data, encrypted)] *)
  bcrypt_compare : string → string → bool;
  (** [{ $regex: pattern, $options: "i" }] applied to a string field *)
  regex_i : string → string → bool;
  (** what the installed Mongoose makes of a key of an update object whose
      value is [undefined]: [true] when it drops the key (the only behaviour
      since Mongoose 6, the [omitUndefined] option before), [false] when it
      sets the field to null (Mongoose 5 without the option).  Which Mongoose
      is installed is up to the repository's [package.json]; [server.js]
      works with either. *)
  omitUndefined : bool;
}.

(** [bcrypt.compare] accepts a password against each of its own hashes. *)
Definition bcrypt_sound (h : Host) : Prop :=
  ∀ salt pw, bcrypt_compare pw (bcrypt_hash salt pw) = true.

(** ** Query filters *)

(** One key of a filter object passed to [find], [findOneAndUpdate] or
    [deleteMany].  A comparison with a field that is [null] or absent does
    not match. *)
Inductive Cond :=
  | by_id (i : ObjectId)               (* _id: i *)
  | by_userId (u : ObjectId)           (* userId: u *)
  | by_isArchived (b : bool)           (* isArchived: b *)
  | by_isTrashed (b : bool)            (* isTrashed: b *)
  | by_tags (t : string)               (* tags: t *)
  | reminder_gte (d : Date)            (* reminder: { $gte: d } *)
  | deletedAt_lte (d : Date)           (* deletedAt: { $lte: d } *)
  | title_regex (q : string)           (* title: { $regex: q, $options: "i" } *)
  | content_regex (q : string)         (* content: { $regex: q, $options: "i" } *)
  | or_ (a b : Cond).                  (* $or: [a, b] *)

(** A filter object: all of its keys must match. *)
Definition Filter := list Cond.

Definition opt_test {A} (p : A → bool) (o : option A) : bool :=
  match o with Some a => p a | None => false end.

Definition string_eqb (a b : string) : bool := bool_decide (a = b).

Fixpoint cond_matches `{Host} (c : Cond) (i : ObjectId) (n : Note) : bool :=
  match c with
  | by_id j => N.eqb i j
  | by_userId u => N.eqb (userId n) u
  | by_isArchived b => opt_test (Bool.eqb b) (isArchived n)
  | by_isTrashed b => opt_test (Bool.eqb b) (isTrashed n)
  | by_tags t => opt_test (existsb (string_eqb t)) (tags n)
  | reminder_gte d => opt_test (λ r, d <=? r) (reminder n)
  | deletedAt_lte d => opt_test (λ r, r <=? d) (deletedAt n)
  | title_regex q => opt_test (regex_i q) (title n)
  | content_regex q => opt_test (regex_i q) (content n)
  | or_ a b => cond_matches a i n || cond_matches b i n
  end.

Definition matches `{Host} (f : Filter) (i : ObjectId) (n : Note) : bool :=
  forallb (λ c, cond_matches c i n) f.

(** ** Update documents *)

(** One key of an update object as the handler writes it; the value [None]
    is [undefined] (the handler took it from a body that leaves the field
    out). *)
Inductive Assign :=
  | set_title (v : option string)
  | set_content (v : option string)
  | set_tags (v : option (list string))
  | set_color (v : option string)
  | set_reminder (v : option Date)
  | set_isArchived (v : option bool)
  | set_isTrashed (v : option bool)
  | set_deletedAt (v : option Date).

Definition Update := list Assign.

Definition assign (n : Note) (a : Assign) : Note :=
  match a with
  | set_title v =>
      mkNote (userId n) v (content n) (tags n) (color n) (isArchived n)
             (isTrashed n) (deletedAt n) (createdAt n) (reminder n)
  | set_content v =>
      mkNote (userId n) (title n) v (tags n) (color n) (isArchived n)
             (isTrashed n) (deletedAt n) (createdAt n) (reminder n)
  | set_tags v =>
      mkNote (userId n) (title n) (content n) v (color n) (isArchived n)
             (isTrashed n) (deletedAt n) (createdAt n) (reminder n)
  | set_color v =>
      mkNote (userId n) (title n) (content n) (tags n) v (isArchived n)
             (isTrashed n) (deletedAt n) (createdAt n) (reminder n)
  | set_reminder v =>
      mkNote (userId n) (title n) (content n) (tags n) (color n) (isArchived n)
             (isTrashed n) (deletedAt n) (createdAt n) v
  | set_isArchived v =>
      mkNote (userId n) (title n) (content n) (tags n) (color n) v
             (isTrashed n) (deletedAt n) (createdAt n) (reminder n)
  | set_isTrashed v =>
      mkNote (userId n) (title n) (content n) (tags n) (color n) (isArchived n)
             v (deletedAt n) (createdAt n) (reminder n)
  | set_deletedAt v =>
      mkNote (userId n) (title n) (content n) (tags n) (color n) (isArchived n)
             (isTrashed n) v (createdAt n) (reminder n)
  end.

(** The keys are set one by one; setting a field to [None] makes it null. *)
Definition apply_update (u : Update) (n : Note) : Note := fold_left assign u n.

Definition is_undefined (a : Assign) : bool :=
  match a with
  | set_title None | set_content None | set_tags None | set_color None
  | set_reminder None | set_isArchived None | set_isTrashed None
  | set_deletedAt None => true
  | _ => false
  end.

(** The update object as Mongoose sends it: with or without the keys whose
    value is [undefined], by [omitUndefined]. *)
Definition cast_update `{Host} (u : Update) : Update :=
  if omitUndefined then List.filter (λ a, negb (is_undefined a)) u else u.

(** What a [PUT] leaves in a field: the value the body gives; for a field
    the body leaves out, the stored value where undefined keys are dropped
    and null where they are written. *)
Definition written `{Host} {A} (given stored : option A) : option A :=
  match given with
  | Some _ => given
  | None => if omitUndefined then stored else None
  end.

(** ** The document store

    The Mongoose operations the handlers call, by their contract: find by
    filter, atomic find-and-update, delete-many by filter, and insert under
    the unique index of [userSchema]. *)

(** [Model.find(filter)]: every document the filter matches. *)
Definition find `{Host} (f : Filter) (c : gmap ObjectId Note)
    : list (ObjectId * Note) :=
  filter (λ kn, matches f kn.1 kn.2 = true) (map_to_list c).

(** [Model.findOneAndUpdate(filter, update, { new: true })]: the first
    document the filter matches is updated in place, by the update object as
    cast, and returned as updated; [None] ([null]) when the filter matches
    nothing. *)
Definition findOneAndUpdate `{Host} (f : Filter) (u : Update)
    (c : gmap ObjectId Note) : gmap ObjectId Note * option Note :=
  match find f c with
  | (k, n) :: _ =>
      (<[k := apply_update (cast_update u) n]> c,
       Some (apply_update (cast_update u) n))
  | [] => (c, None)
  end.

(** [Model.deleteMany(filter)]: every document the filter matches is
    removed. *)
Definition deleteMany `{Host} (f : Filter) (c : gmap ObjectId Note)
    : gmap ObjectId Note :=
  filter (λ kn, matches f kn.1 kn.2 = false) c.

(** [User.findOne({ username })]. *)
Definition findOne_username (name : string) (c : gmap ObjectId User)
    : option (ObjectId * User) :=
  snd <$> list_find (λ ku, username ku.2 = Some name) (map_to_list c).

(** The unique index on [username]: an insert is rejected when a stored
    user has the same [username] (an absent one counts as [null]). *)
Definition username_taken (name : option string) (c : gmap ObjectId User)
    : bool :=
  bool_decide (Exists (λ ku, username ku.2 = name) (map_to_list c)).

(** ** Dates *)

Definition msPerDay : Z := 86400000.

Definition LocalTime `{Host} (t : Date) : Z := t + LocalTZA t true.
Definition UTC `{Host} (t : Z) : Date := t - LocalTZA t false.
Definition Day (t : Z) : Z := t `div` msPerDay.
Definition TimeWithinDay (t : Z) : Z := t `mod` msPerDay.
Definition MakeDate (day time : Z) : Z := day * msPerDay + time.

(** [d.setDate(d.getDate() - k)]: in local time, the day number goes back by
    [k] (the day of the month may leave its month: the date is normalised)
    and the time within the day is kept. *)
Definition setDate_back `{Host} (k : Z) (d : Date) : Date :=
  let t := LocalTime d in
  UTC (MakeDate (Day t - k) (TimeWithinDay t)).

(** The [thirtyDaysAgo] of the scheduled job, from its [new Date()]. *)
Definition thirtyDaysAgo `{Host} (now : Date) : Date := setDate_back 30 now.

(** ** Requests and responses *)

(** What [jwt.verify] makes of the [authorization] header. *)
Inductive Authorization :=
  | no_token                          (* no header *)
  | invalid_token                     (* jwt.verify throws *)
  | valid_token (userId : ObjectId).  (* decoded.userId *)

(** The fields read from [req.body] by the note handlers. *)
Record NoteBody := mkBody {
  b_title : option string;
  b_content : option string;
  b_tags : option (list string);
  b_color : option string;
  b_reminder : option Date;
  b_isArchived : option bool;
  b_isTrashed : option bool;
}.

Inductive Payload :=
  | text (s : string)                          (* res.send(s) *)
  | json_notes (l : list (ObjectId * Note))    (* res.json(notes) *)
  | json_token (userId : ObjectId).            (* res.json({ token }), the
                                                  token signed for userId *)

Inductive Response :=
  | send (status : N) (p : Payload)
  | rejected.   (* the handler's promise is rejected: nothing is sent *)

Definition invalid_credentials : Response :=
  send 400 (text "Invalid Username or Password").

Definition note_not_found : Response := send 404 (text "Note not found").

(** ** Handlers *)

(** [verifyToken]. *)
Definition verifyToken (a : Authorization)
    (next : ObjectId → Db → Db * Response) (s : Db) : Db * Response :=
  match a with
  | no_token => (s, send 403 (text "Token is required"))
  | invalid_token => (s, send 401 (text "Invalid Token"))
  | valid_token u => next u s
  end.

(** [POST /api/register].  [bcrypt.hash] is awaited before the [try]: with
    no [password] it rejects and nothing is saved.  [new User] draws the
    [_id]; [save] fails on the unique index alone. *)
Definition register `{Host} (salt : string) (username password : option string)
    (s : Db) : Db * Response :=
  match password with
  | None => (s, rejected)
  | Some pw =>
      let hashedPassword := bcrypt_hash salt pw in
      let newUser := mkUser username hashedPassword in
      let oid := next_oid s in
      if username_taken username (users s)
      then (mkDb (users s) (notes s) (N.succ oid),
            send 400 (text "Username already exists"))
      else (mkDb (<[oid := newUser]> (users s)) (notes s) (N.succ oid),
            send 201 (text "User Registered"))
  end.

(** [POST /api/login]. *)
Definition login `{Host} (username password : string) (s : Db)
    : Db * Response :=
  match findOne_username username (users s) with
  | None => (s, invalid_credentials)
  | Some (uid, mkUser _ user_password) =>
      let isPasswordValid := bcrypt_compare password user_password in
      if negb isPasswordValid then (s, invalid_credentials)
      else (s, send 200 (json_token uid))
  end.

(** [POST /api/notes].  An array path left out defaults to the empty array;
    [createdAt] takes its default [Date.now]. *)
Definition createNote (now : Date) (b : NoteBody) (uid : ObjectId) (s : Db)
    : Db * Response :=
  let newNote :=
    mkNote uid (b_title b) (b_content b) (Some (default [] (b_tags b)))
           (b_color b) (Some false) (Some false) None now (b_reminder b) in
  (mkDb (users s) (<[next_oid s := newNote]> (notes s)) (N.succ (next_oid s)),
   send 201 (text "Note Created")).

(** [GET /api/notes]. *)
Definition getNotes `{Host} (uid : ObjectId) (s : Db) : Db * Response :=
  (s, send 200 (json_notes (find [by_userId uid; by_isTrashed false] (notes s)))).

(** [GET /api/notes/search]. *)
Definition searchNotes `{Host} (query : string) (uid : ObjectId) (s : Db)
    : Db * Response :=
  (s, send 200 (json_notes
         (find [by_userId uid; by_isTrashed false;
                or_ (title_regex query) (content_regex query)] (notes s)))).

(** [GET /api/notes/archived]. *)
Definition getArchived `{Host} (uid : ObjectId) (s : Db) : Db * Response :=
  (s, send 200 (json_notes (find [by_userId uid; by_isArchived true] (notes s)))).

(** [GET /api/notes/tag/:tag]. *)
Definition getByTag `{Host} (tag : string) (uid : ObjectId) (s : Db)
    : Db * Response :=
  (s, send 200 (json_notes
         (find [by_userId uid; by_tags tag; by_isTrashed false] (notes s)))).

(** [GET /api/notes/trashed]. *)
Definition getTrashed `{Host} (uid : ObjectId) (s : Db) : Db * Response :=
  (s, send 200 (json_notes (find [by_userId uid; by_isTrashed true] (notes s)))).

(** [PUT /api/notes/:id]. *)
Definition updateNote `{Host} (id : ObjectId) (b : NoteBody) (uid : ObjectId)
    (s : Db) : Db * Response :=
  let '(c, note) :=
    findOneAndUpdate [by_id id; by_userId uid]
      [set_title (b_title b); set_content (b_content b); set_tags (b_tags b);
       set_color (b_color b); set_reminder (b_reminder b);
       set_isArchived (b_isArchived b); set_isTrashed (b_isTrashed b)]
      (notes s) in
  match note with
  | None => (mkDb (users s) c (next_oid s), note_not_found)
  | Some _ => (mkDb (users s) c (next_oid s), send 200 (text "Note Updated"))
  end.

(** [DELETE /api/notes/:id]. *)
Definition trashNote `{Host} (now : Date) (id : ObjectId) (uid : ObjectId)
    (s : Db) : Db * Response :=
  let '(c, note) :=
    findOneAndUpdate [by_id id; by_userId uid]
      [set_isTrashed (Some true); set_deletedAt (Some now)] (notes s) in
  match note with
  | None => (mkDb (users s) c (next_oid s), note_not_found)
  | Some _ =>
      (mkDb (users s) c (next_oid s), send 200 (text "Note Moved to Trash"))
  end.

(** [DELETE /api/notes/trashed/empty]. *)
Definition emptyTrash `{Host} (uid : ObjectId) (s : Db) : Db * Response :=
  (mkDb (users s) (deleteMany [by_userId uid; by_isTrashed true] (notes s))
        (next_oid s),
   send 200 (text "Trash Emptied")).

(** [GET /api/notes/reminders]. *)
Definition getReminders `{Host} (now : Date) (uid : ObjectId) (s : Db)
    : Db * Response :=
  (s, send 200 (json_notes
         (find [by_userId uid; reminder_gte now; by_isTrashed false]
               (notes s)))).

(** The job scheduled by [cron.schedule("0 0 * * *", ...)], run at [now]. *)
Definition purgeExpiredTrash `{Host} (now : Date) (s : Db) : Db :=
  mkDb (users s)
       (deleteMany [by_isTrashed true; deletedAt_lte (thirtyDaysAgo now)]
                   (notes s))
       (next_oid s).

(** ** The server as a transition system *)

Inductive Request :=
  | POST_register (username password : option string)
  | POST_login (username password : string)
  | POST_notes (a : Authorization) (b : NoteBody)
  | GET_notes (a : Authorization)
  | GET_notes_search (a : Authorization) (query : string)
  | GET_notes_archived (a : Authorization)
  | GET_notes_tag (a : Authorization) (tag : string)
  | GET_notes_trashed (a : Authorization)
  | PUT_notes_id (a : Authorization) (id : ObjectId) (b : NoteBody)
  | DELETE_notes_id (a : Authorization) (id : ObjectId)
  | DELETE_notes_trashed_empty (a : Authorization)
  | GET_notes_reminders (a : Authorization).

(** One request, served at instant [now]; [salt] is what [bcrypt] draws. *)
Definition serve `{Host} (now : Date) (salt : string) (r : Request) (s : Db)
    : Db * Response :=
  match r with
  | POST_register u p => register salt u p s
  | POST_login u p => login u p s
  | POST_notes a b => verifyToken a (createNote now b) s
  | GET_notes a => verifyToken a getNotes s
  | GET_notes_search a q => verifyToken a (searchNotes q) s
  | GET_notes_archived a => verifyToken a getArchived s
  | GET_notes_tag a t => verifyToken a (getByTag t) s
  | GET_notes_trashed a => verifyToken a getTrashed s
  | PUT_notes_id a id b => verifyToken a (updateNote id b) s
  | DELETE_notes_id a id => verifyToken a (trashNote now id) s
  | DELETE_notes_trashed_empty a => verifyToken a emptyTrash s
  | GET_notes_reminders a => verifyToken a (getReminders now) s
  end.

(** What happens to the server: a request comes in, or the daily job fires. *)
Inductive Event :=
  | request (now : Date) (salt : string) (r : Request)
  | cron_tick (now : Date).

Definition step `{Host} (e : Event) (s : Db) : Db :=
  match e with
  | request now salt r => (serve now salt r s).1
  | cron_tick now => purgeExpiredTrash now s
  end.

Definition run `{Host} (es : list Event) (s : Db) : Db :=
  fold_left (λ s e, step e s) es s.

(** ** Hosts to run the model on *)

(** A host on UTC; its [bcrypt] is a toy (the hash is the password, a
    dollar sign and the salt, and a password is accepted when the hash
    starts with it and the dollar sign), its patterns match by prefix, and
    its Mongoose writes undefined update keys as null. *)
Definition toy_hash (salt pw : string) : string := pw +:+ "$" +:+ salt.

Definition toy_compare (pw h : string) : bool := String.prefix (pw +:+ "$") h.

#[export] Instance utc_host : Host := {|
  LocalTZA := λ _ _, 0;
  bcrypt_hash := toy_hash;
  bcrypt_compare := toy_compare;
  regex_i := String.prefix;
  omitUndefined := false;
|}.

(** A host whose zone leaves summer time (UTC+1) for winter time (UTC) at
    the instant [dst_end]; otherwise like [utc_host].  It is not an instance:
    where no host is named, [utc_host] is meant. *)
Definition dst_end : Date := 40 * msPerDay.

Definition dst_host : Host := {|
  LocalTZA := λ t utc,
    if utc then (if t <? dst_end then 3600000 else 0)
    else (if t <? dst_end + 3600000 then 3600000 else 0);
  bcrypt_hash := toy_hash;
  bcrypt_compare := toy_compare;
  regex_i := String.prefix;
  omitUndefined := false;
|}.

(** A host like [utc_host] whose Mongoose drops undefined update keys.  It
    is not an instance either. *)
Definition merge_host : Host := {|
  LocalTZA := λ _ _, 0;
  bcrypt_hash := toy_hash;
  bcrypt_compare := toy_compare;
  regex_i := String.prefix;
  omitUndefined := true;
|}.

(** A small run: two users register (keys 0 and 1), each creates a note
    (keys 2 and 3), the first user archives her note and moves it to the
    trash at instant 5000, the second sets [isTrashed] on his through
    [PUT]. *)
Definition demo_body : NoteBody :=
  mkBody (Some "A") (Some "x") (Some ["work"]) None None None None.

Definition demo_archive : NoteBody :=
  mkBody (Some "A") (Some "x") (Some ["work"]) None None (Some true) (Some false).

Definition demo_put_trash : NoteBody :=
  mkBody (Some "B") None None None None None (Some true).

Definition no_fields : NoteBody := mkBody None None None None None None None.

Definition demo_events : list Event :=
  [ request 1000 "s1" (POST_register (Some "alice") (Some "pw-a"));
    request 2000 "s2" (POST_register (Some "bob") (Some "pw-b"));
    request 3000 EmptyString (POST_notes (valid_token 0%N) demo_body);
    request 3500 EmptyString (POST_notes (valid_token 1%N) demo_body);
    request 4000 EmptyString (PUT_notes_id (valid_token 0%N) 2%N demo_archive);
    request 5000 EmptyString (DELETE_notes_id (valid_token 0%N) 2%N);
    request 6000 EmptyString (PUT_notes_id (valid_token 1%N) 3%N demo_put_trash) ].

Definition demo_db `{Host} : Db := run demo_events empty_db.

Definition demo_note2 : Note :=
  mkNote 0%N (Some "A") (Some "x") (Some ["work"]) None (Some true) (Some true)
         (Some 5000) 3000 None.

Definition demo_note3 : Note :=
  mkNote 1%N (Some "B") None None None None (Some true) None 3500 None.

(** The notes carried by a response. *)
Definition notes_of (r : Response) : list (ObjectId * Note) :=
  match r with
  | send _ (json_notes l) => l
  | _ => []
  end.

(** ** Kinds of events *)

(** The event is a [PUT /api/notes/:id]. *)
Definition is_update (e : Event) : bool :=
  match e with
  | request _ _ (PUT_notes_id _ _ _) => true
  | _ => false
  end.



(** The [authorization] header of a request whose route is behind
    [verifyToken]; the two account routes are not. *)
Definition auth_of (r : Request) : option Authorization :=
  match r with
  | POST_register _ _ | POST_login _ _ => None
  | POST_notes a _ | GET_notes a | GET_notes_search a _
  | GET_notes_archived a | GET_notes_tag a _ | GET_notes_trashed a
  | PUT_notes_id a _ _ | DELETE_notes_id a _
  | DELETE_notes_trashed_empty a | GET_notes_reminders a => Some a
  end.

(** ** Well-formed databases *)

(** Every key in use was drawn from [next_oid], and no two users share a
    [username] (the unique index). *)
Definition db_ok (s : Db) : Prop :=
  (∀ k x, users s !! k = Some x → (k < next_oid s)%N) ∧
  (∀ k n, notes s !! k = Some n → (k < next_oid s)%N) ∧
  (∀ k1 k2 x1 x2, users s !! k1 = Some x1 → users s !! k2 = Some x2 →
                  username x1 = username x2 → k1 = k2).

(** ** The document store: lemmas *)

Section store.
Context `{host : Host}.
Implicit Types (c : gmap ObjectId Note) (f : Filter) (u : Update).
Implicit Types (k i : ObjectId) (n : Note).

Lemma elem_of_find f c k n :
  (k, n) ∈ find f c ↔ c !! k = Some n ∧ matches f k n = true.
Proof.
  unfold find. rewrite list_elem_of_filter, elem_of_map_to_list. simpl.
  tauto.
Qed.

Lemma NoDup_find f c : NoDup (find f c).
Proof. apply NoDup_filter, NoDup_map_to_list. Qed.

Lemma lookup_deleteMany f c k n :
  deleteMany f c !! k = Some n ↔ c !! k = Some n ∧ matches f k n = false.
Proof. unfold deleteMany. by rewrite map_lookup_filter_Some. Qed.

Lemma lookup_deleteMany_None f c k :
  deleteMany f c !! k = None ↔
  c !! k = None ∨ ∃ n, c !! k = Some n ∧ matches f k n = true.
Proof.
  unfold deleteMany. rewrite map_lookup_filter_None. simpl. split.
  - intros [Hn | Hall]; [by left |].
    destruct (c !! k) as [n |] eqn:E; [right | by left].
    exists n. split; [done |].
    specialize (Hall n eq_refl). by destruct (matches f k n).
  - intros [Hn | (n & Hn & Hm)]; [by left | right].
    intros n' Hn'. rewrite Hn in Hn'. injection Hn' as <-. by rewrite Hm.
Qed.

Lemma deleteMany_twice f c : deleteMany f (deleteMany f c) = deleteMany f c.
Proof.
  apply map_eq. intros k. apply option_eq. intros n.
  rewrite !lookup_deleteMany. tauto.
Qed.

(** The filter [{ _id: i, userId: v }] of [update] and [trash]. *)
Lemma matches_id_owner i v k n :
  matches [by_id i; by_userId v] k n = true ↔ k = i ∧ userId n = v.
Proof.
  simpl. rewrite !andb_true_iff, !N.eqb_eq. tauto.
Qed.

Lemma findOneAndUpdate_hit i v u c n :
  c !! i = Some n → userId n = v →
  findOneAndUpdate [by_id i; by_userId v] u c =
    (<[i := apply_update (cast_update u) n]> c,
     Some (apply_update (cast_update u) n)).
Proof.
  intros Hc Hv. unfold findOneAndUpdate.
  destruct (find _ c) as [| [k m] l] eqn:E.
  - assert (Hin : (i, n) ∈ find [by_id i; by_userId v] c)
      by (apply elem_of_find; split; [done | by apply matches_id_owner]).
    rewrite E in Hin. by apply not_elem_of_nil in Hin.
  - assert (Hin : (k, m) ∈ find [by_id i; by_userId v] c)
      by (rewrite E; apply list_elem_of_here).
    apply elem_of_find in Hin as [Hk [-> _]%matches_id_owner].
    rewrite Hc in Hk. by injection Hk as <-.
Qed.

Lemma findOneAndUpdate_miss i v u c :
  (∀ n, c !! i = Some n → userId n ≠ v) →
  findOneAndUpdate [by_id i; by_userId v] u c = (c, None).
Proof.
  intros Hno. unfold findOneAndUpdate.
  destruct (find _ c) as [| [k m] l] eqn:E; [done |].
  assert (Hin : (k, m) ∈ find [by_id i; by_userId v] c)
    by (rewrite E; apply list_elem_of_here).
  apply elem_of_find in Hin as [Hk [-> Hm]%matches_id_owner].
  by destruct (Hno m Hk).
Qed.

(** The three cases of [findOneAndUpdate] on the filter
    [{ _id: i, userId: v }]. *)
Lemma findOneAndUpdate_cases i v u c :
  (∃ n, c !! i = Some n ∧ userId n = v ∧
        findOneAndUpdate [by_id i; by_userId v] u c =
          (<[i := apply_update (cast_update u) n]> c,
           Some (apply_update (cast_update u) n)))
  ∨ ((∀ n, c !! i = Some n → userId n ≠ v) ∧
     findOneAndUpdate [by_id i; by_userId v] u c = (c, None)).
Proof.
  destruct (c !! i) as [n |] eqn:E.
  - destruct (decide (userId n = v)) as [Hv | Hv].
    + left. exists n. split_and!; [done.. |].
      by apply findOneAndUpdate_hit.
    + right. split; [congruence |].
      apply findOneAndUpdate_miss. congruence.
  - right. split; [congruence |].
    apply findOneAndUpdate_miss. congruence.
Qed.

(** The update object of [PUT /api/notes/:id], applied. *)
Lemma apply_update_put b n :
  apply_update
    (cast_update
       [set_title (b_title b); set_content (b_content b);
        set_tags (b_tags b); set_color (b_color b);
        set_reminder (b_reminder b); set_isArchived (b_isArchived b);
        set_isTrashed (b_isTrashed b)]) n =
  mkNote (userId n) (written (b_title b) (title n))
         (written (b_content b) (content n)) (written (b_tags b) (tags n))
         (written (b_color b) (color n))
         (written (b_isArchived b) (isArchived n))
         (written (b_isTrashed b) (isTrashed n)) (deletedAt n) (createdAt n)
         (written (b_reminder b) (reminder n)).
Proof.
  unfold cast_update, written. destruct n.
  destruct omitUndefined;
    destruct b as [[?|] [?|] [?|] [?|] [?|] [?|] [?|]]; reflexivity.
Qed.

(** The update object of [DELETE /api/notes/:id], applied: it has no
    undefined key. *)
Lemma apply_update_trash now n :
  apply_update
    (cast_update [set_isTrashed (Some true); set_deletedAt (Some now)]) n =
  mkNote (userId n) (title n) (content n) (tags n) (color n) (isArchived n)
         (Some true) (Some now) (createdAt n) (reminder n).
Proof. unfold cast_update. by destruct omitUndefined. Qed.

Lemma written_None {A} (stored : option A) :
  written None stored = if omitUndefined then stored else None.
Proof. done. Qed.

End store.

(** ** Reading and overwriting notes *)

Section note_handlers.
Context `{host : Host}.
Implicit Types (s : Db) (k i v : ObjectId) (n : Note) (b : NoteBody).

Lemma matches_archived v k n :
  matches [by_userId v; by_isArchived true] k n = true ↔
  userId n = v ∧ isArchived n = Some true.
Proof.
  simpl. rewrite !andb_true_iff, N.eqb_eq.
  destruct (isArchived n) as [[] |]; simpl; intuition congruence.
Qed.

(** C6: [listArchived(ownerId)] ([GET /api/notes/archived]) answers with
    exactly the owner's notes whose [isArchived] is [true], each once; the
    [isTrashed] flag plays no part, so an archived note that is also in the
    trash is in the answer. *)
Theorem listArchived_exact s v k n :
  getArchived v s =
    (s, send 200 (json_notes (notes_of (getArchived v s).2))) ∧
  NoDup (notes_of (getArchived v s).2) ∧
  ((k, n) ∈ notes_of (getArchived v s).2 ↔
   notes s !! k = Some n ∧ userId n = v ∧ isArchived n = Some true) ∧
  (notes s !! k = Some n → userId n = v → isArchived n = Some true →
   isTrashed n = Some true → (k, n) ∈ notes_of (getArchived v s).2).
Proof.
  unfold getArchived. simpl. split_and!.
  - done.
  - apply NoDup_find.
  - by rewrite elem_of_find, matches_archived.
  - intros. by rewrite elem_of_find, matches_archived.
Qed.

(** C4, as the code has it: on a note the caller owns, [update] ([PUT
    /api/notes/:id]) answers "Note Updated" and overwrites each of title,
    content, tags, color, reminder, isArchived and isTrashed that the
    request gives with the request's value, whatever was stored.  What
    becomes of a field the request leaves out is up to the installed
    Mongoose: where it writes undefined update keys as null, the field is
    stored as null, the seven fields are overwritten in full and of two
    updates the last one wins; where it drops them, the field keeps its
    stored value, and an update with none of the seven fields changes
    nothing. *)
Theorem update_writes_given_fields s i v b n :
  notes s !! i = Some n → userId n = v →
  updateNote i b v s =
    (mkDb (users s)
          (<[i := mkNote (userId n) (written (b_title b) (title n))
                         (written (b_content b) (content n))
                         (written (b_tags b) (tags n))
                         (written (b_color b) (color n))
                         (written (b_isArchived b) (isArchived n))
                         (written (b_isTrashed b) (isTrashed n))
                         (deletedAt n) (createdAt n)
                         (written (b_reminder b) (reminder n))]>
             (notes s))
          (next_oid s),
     send 200 (text "Note Updated")) ∧
  (∀ A (x : A) stored, written (Some x) stored = Some x) ∧
  (∀ A (stored : option A),
     written None stored = if omitUndefined then stored else None) ∧
  (omitUndefined = false →
   updateNote i b v s =
     (mkDb (users s)
           (<[i := mkNote (userId n) (b_title b) (b_content b) (b_tags b)
                          (b_color b) (b_isArchived b) (b_isTrashed b)
                          (deletedAt n) (createdAt n) (b_reminder b)]>
              (notes s))
           (next_oid s),
      send 200 (text "Note Updated")) ∧
   ∀ b', (updateNote i b v (updateNote i b' v s).1).1 =
         (updateNote i b v s).1) ∧
  (omitUndefined = true →
   updateNote i (mkBody None None None None None None None) v s =
     (s, send 200 (text "Note Updated"))).
Proof.
  intros Hn Hv.
  assert (Hone : ∀ s' b' n', notes s' !! i = Some n' → userId n' = v →
    updateNote i b' v s' =
      (mkDb (users s')
         (<[i := mkNote (userId n') (written (b_title b') (title n'))
                        (written (b_content b') (content n'))
                        (written (b_tags b') (tags n'))
                        (written (b_color b') (color n'))
                        (written (b_isArchived b') (isArchived n'))
                        (written (b_isTrashed b') (isTrashed n'))
                        (deletedAt n') (createdAt n')
                        (written (b_reminder b') (reminder n'))]>
            (notes s'))
         (next_oid s'),
       send 200 (text "Note Updated"))).
  { intros s' b' n' Hn' Hv'. unfold updateNote.
    by rewrite (findOneAndUpdate_hit _ _ _ _ n'), apply_update_put. }
  assert (Hnull : omitUndefined = false → ∀ A (g st : option A),
            written g st = g).
  { intros Hom A g st. unfold written. rewrite Hom. by destruct g. }
  split_and!; [by apply Hone | done | done | |].
  - intros Hom. split.
    + rewrite (Hone s b n Hn Hv). by rewrite !Hnull.
    + intros b'. rewrite (Hone s b' n Hn Hv). simpl.
      erewrite (Hone _ b); [| simpl; apply lookup_insert_eq | done].
      rewrite (Hone s b n Hn Hv). simpl.
      by rewrite insert_insert_eq, !Hnull.
  - intros Hom. rewrite (Hone s _ n Hn Hv). simpl.
    unfold written. rewrite Hom.
    rewrite insert_id by (by destruct n). by destruct s.
Qed.

End note_handlers.

Lemma listArchived_exact_witness :
  (2%N, demo_note2) ∈ notes_of (getArchived 0%N demo_db).2.
Proof.
  apply (listArchived_exact (host := utc_host)
        (@demo_db utc_host) 0%N 2%N demo_note2); reflexivity.
Defined.

Lemma update_writes_given_fields_witness :
  notes (updateNote 2%N no_fields 0%N demo_db).1 !! 2%N =
    Some (mkNote 0%N None None None None None None (Some 5000) 3000 None) ∧
  @updateNote merge_host 2%N no_fields 0%N (@demo_db merge_host) =
    (@demo_db merge_host, send 200 (text "Note Updated")).
Proof.
  split.
  - pose proof (@update_writes_given_fields utc_host (@demo_db utc_host) 2%N
                  0%N no_fields demo_note2 eq_refl eq_refl)
      as (_ & _ & _ & H & _).
    rewrite (proj1 (H eq_refl)). reflexivity.
  - pose proof (@update_writes_given_fields merge_host (@demo_db merge_host)
                  2%N 0%N no_fields demo_note2 eq_refl eq_refl)
      as (_ & _ & _ & _ & H).
    exact (H eq_refl).
Defined.

(** C4 as stated fails where Mongoose drops undefined update keys: a [PUT]
    with none of the seven fields leaves the note with its title, content,
    tags and flags. *)
Lemma update_keeps_omitted_fields :
  notes (@demo_db merge_host) !! 2%N = Some demo_note2 ∧
  (@updateNote merge_host 2%N no_fields 0%N (@demo_db merge_host)).2 =
    send 200 (text "Note Updated") ∧
  notes (@updateNote merge_host 2%N no_fields 0%N (@demo_db merge_host)).1
    !! 2%N = Some demo_note2 ∧
  title demo_note2 = Some "A" ∧ isTrashed demo_note2 = Some true.
Proof. vm_compute. done. Qed.

(** ** Deleting notes *)

Section purging.
Context `{host : Host}.
Implicit Types (s : Db) (k i v : ObjectId) (n : Note) (now : Date).

Lemma matches_trashed_of v k n :
  matches [by_userId v; by_isTrashed true] k n = true ↔
  userId n = v ∧ isTrashed n = Some true.
Proof.
  simpl. rewrite !andb_true_iff, N.eqb_eq.
  destruct (isTrashed n) as [[] |]; simpl; intuition congruence.
Qed.

Lemma matches_expired d k n :
  matches [by_isTrashed true; deletedAt_lte d] k n = true ↔
  isTrashed n = Some true ∧ ∃ t, deletedAt n = Some t ∧ t ≤ d.
Proof.
  simpl. rewrite !andb_true_iff.
  destruct (isTrashed n) as [[] |], (deletedAt n) as [t |]; simpl;
    rewrite ?Z.leb_le; split;
    try (intros (? & ? & ?); congruence);
    try (intros (? & ? & ? & ?); congruence).
  - intros (_ & Ht & _). split; [done |]. by exists t.
  - intros (_ & t' & [= <-] & Ht). done.
Qed.

Lemma matches_false_iff f k n (P : Prop) :
  (matches f k n = true ↔ P) → (matches f k n = false ↔ ¬ P).
Proof. destruct (matches f k n); intuition congruence. Qed.

(** With one offset from UTC all year, [setDate] moves an instant by whole
    days of 86 400 000 ms. *)
Lemma setDate_back_fixed_offset off j d :
  (∀ t utc, LocalTZA t utc = off) → setDate_back j d = d - j * msPerDay.
Proof.
  intros Hoff. unfold setDate_back, UTC, LocalTime, MakeDate, Day,
    TimeWithinDay. rewrite !Hoff.
  pose proof (Z.div_mod (d + off) msPerDay) as Hdm.
  unfold msPerDay in *. lia.
Qed.

Lemma emptyTrash_lookup_None s v k :
  notes (emptyTrash v s).1 !! k = None ↔
  notes s !! k = None ∨
  ∃ n, notes s !! k = Some n ∧ userId n = v ∧ isTrashed n = Some true.
Proof.
  unfold emptyTrash. simpl. rewrite lookup_deleteMany_None.
  by setoid_rewrite matches_trashed_of.
Qed.

Lemma emptyTrash_lookup_Some s v k n :
  notes (emptyTrash v s).1 !! k = Some n ↔
  notes s !! k = Some n ∧ ¬ (userId n = v ∧ isTrashed n = Some true).
Proof.
  unfold emptyTrash. simpl. rewrite lookup_deleteMany.
  by rewrite (matches_false_iff _ _ _ _ (matches_trashed_of v k n)).
Qed.

(** C5: [emptyTrash(ownerId)] ([DELETE /api/notes/trashed/empty]) always
    answers "Trash Emptied"; it removes exactly the caller's notes whose
    [isTrashed] is [true], keeps every other note (not in the trash, or of
    another owner) as it was, and leaves the users alone; done twice in a
    row it gives the state and the answer of doing it once. *)
Theorem emptyTrash_exact s v k :
  (emptyTrash v s).2 = send 200 (text "Trash Emptied") ∧
  users (emptyTrash v s).1 = users s ∧
  (notes (emptyTrash v s).1 !! k = None ↔
   notes s !! k = None ∨
   ∃ n, notes s !! k = Some n ∧ userId n = v ∧ isTrashed n = Some true) ∧
  (∀ n, notes (emptyTrash v s).1 !! k = Some n ↔
        notes s !! k = Some n ∧ ¬ (userId n = v ∧ isTrashed n = Some true)) ∧
  emptyTrash v (emptyTrash v s).1 = emptyTrash v s.
Proof.
  split_and!; [done | done | | |].
  - apply emptyTrash_lookup_None.
  - apply emptyTrash_lookup_Some.
  - unfold emptyTrash. simpl. by rewrite deleteMany_twice.
Qed.

(** The sweep, in terms of the job's own [thirtyDaysAgo]. *)
Lemma purgeExpiredTrash_lookup now s k :
  (notes (purgeExpiredTrash now s) !! k = None ↔
   notes s !! k = None ∨
   ∃ n t, notes s !! k = Some n ∧ isTrashed n = Some true ∧
          deletedAt n = Some t ∧ t ≤ thirtyDaysAgo now) ∧
  (∀ n, notes (purgeExpiredTrash now s) !! k = Some n ↔
        notes s !! k = Some n ∧
        ¬ (isTrashed n = Some true ∧
           ∃ t, deletedAt n = Some t ∧ t ≤ thirtyDaysAgo now)).
Proof.
  unfold purgeExpiredTrash. simpl. split.
  - rewrite lookup_deleteMany_None. setoid_rewrite matches_expired. split.
    + intros [? | (n & ? & ? & t & ? & ?)]; [by left | right].
      by exists n, t.
    + intros [? | (n & t & ? & ? & ? & ?)]; [by left | right].
      exists n. split_and!; [done.. |]. by exists t.
  - intros n. rewrite lookup_deleteMany.
    by rewrite (matches_false_iff _ _ _ _ (matches_expired _ k n)).
Qed.

(** C2: [purgeExpiredTrash(now)], the daily job, removes a stored note
    exactly when its [isTrashed] is [true] and its [deletedAt] is a date no
    later than the job's [thirtyDaysAgo], whoever owns it, and keeps every
    other note as it was; the users are left alone.  On a host with one
    offset from UTC, [thirtyDaysAgo] is [now] less 30 days of 24 hours, a
    note trashed 29 days before [now] is kept and a note trashed exactly
    30 days before [now] is removed. *)
Theorem purgeExpiredTrash_exact now s k n :
  notes s !! k = Some n →
  users (purgeExpiredTrash now s) = users s ∧
  (notes (purgeExpiredTrash now s) !! k = None ↔
   isTrashed n = Some true ∧
   ∃ t, deletedAt n = Some t ∧ t ≤ thirtyDaysAgo now) ∧
  (notes (purgeExpiredTrash now s) !! k = None ∨
   notes (purgeExpiredTrash now s) !! k = Some n) ∧
  (∀ off, (∀ t utc, LocalTZA t utc = off) →
     thirtyDaysAgo now = now - 30 * msPerDay ∧
     (isTrashed n = Some true →
      deletedAt n = Some (now - 29 * msPerDay) →
      notes (purgeExpiredTrash now s) !! k = Some n) ∧
     (isTrashed n = Some true →
      deletedAt n = Some (now - 30 * msPerDay) →
      notes (purgeExpiredTrash now s) !! k = None)).
Proof.
  intros Hn. destruct (purgeExpiredTrash_lookup now s k) as [HNone HSome].
  assert (Hiff : notes (purgeExpiredTrash now s) !! k = None ↔
                 isTrashed n = Some true ∧
                 ∃ t, deletedAt n = Some t ∧ t ≤ thirtyDaysAgo now).
  { rewrite HNone. split.
    - intros [? | (n' & t & Hn' & ? & ? & ?)]; [congruence |].
      assert (n' = n) as -> by congruence. eauto.
    - intros (? & t & ? & ?). right. by exists n, t. }
  split_and!; [done | done | |].
  - destruct (notes (purgeExpiredTrash now s) !! k) as [n' |] eqn:E;
      [right | by left].
    destruct (proj1 (HSome n') eq_refl) as [E' _]. congruence.
  - intros off Hoff.
    assert (Hago : thirtyDaysAgo now = now - 30 * msPerDay)
      by apply (setDate_back_fixed_offset off 30 now Hoff).
    split_and!; [done | |].
    + intros Ht Hd. apply HSome. split; [done |].
      intros (_ & t & Ht' & Hle). rewrite Hd in Ht'. injection Ht' as <-.
      rewrite Hago in Hle. unfold msPerDay in Hle. lia.
    + intros Ht Hd. apply Hiff. split; [done |].
      exists (now - 30 * msPerDay). split; [done |]. rewrite Hago. lia.
Qed.

End purging.

Lemma purgeExpiredTrash_exact_witness :
  notes (purgeExpiredTrash (5000 + 29 * msPerDay) demo_db) !! 2%N =
    Some demo_note2 ∧
  notes (purgeExpiredTrash (5000 + 30 * msPerDay) demo_db) !! 2%N = None.
Proof.
  split.
  - apply (purgeExpiredTrash_exact (host := utc_host)
        (5000 + 29 * msPerDay) (@demo_db utc_host) 2%N
             demo_note2 eq_refl) with (off := 0); reflexivity.
  - apply (purgeExpiredTrash_exact (host := utc_host)
        (5000 + 30 * msPerDay) (@demo_db utc_host) 2%N
             demo_note2 eq_refl) with (off := 0); reflexivity.
Defined.

(** Where the zone changes its offset within the thirty days, the job's
    [thirtyDaysAgo] is thirty calendar days back at the same local time of
    day, an hour off thirty days of 24 hours. *)
Example thirtyDaysAgo_across_dst :
  @thirtyDaysAgo dst_host (45 * msPerDay) = 15 * msPerDay - 3600000.
Proof. reflexivity. Qed.

(** ** Where the notes of a state come from *)

Section provenance.
Context `{host : Host}.
Implicit Types (s : Db) (k i v : ObjectId) (n : Note) (e : Event).

Lemma db_eta s : mkDb (users s) (notes s) (next_oid s) = s.
Proof. by destruct s. Qed.

Lemma updateNote_hit s i v b n :
  notes s !! i = Some n → userId n = v →
  updateNote i b v s =
    (mkDb (users s)
          (<[i := mkNote (userId n) (written (b_title b) (title n))
                         (written (b_content b) (content n))
                         (written (b_tags b) (tags n))
                         (written (b_color b) (color n))
                         (written (b_isArchived b) (isArchived n))
                         (written (b_isTrashed b) (isTrashed n))
                         (deletedAt n) (createdAt n)
                         (written (b_reminder b) (reminder n))]>
             (notes s))
          (next_oid s),
     send 200 (text "Note Updated")).
Proof.
  intros Hn Hv. unfold updateNote.
  by rewrite (findOneAndUpdate_hit _ _ _ _ n), apply_update_put.
Qed.

Lemma updateNote_miss s i v b :
  (∀ n, notes s !! i = Some n → userId n ≠ v) →
  updateNote i b v s = (s, note_not_found).
Proof.
  intros Hno. unfold updateNote.
  rewrite findOneAndUpdate_miss by done. by rewrite db_eta.
Qed.

Lemma trashNote_hit s now i v n :
  notes s !! i = Some n → userId n = v →
  trashNote now i v s =
    (mkDb (users s)
          (<[i := mkNote (userId n) (title n) (content n) (tags n) (color n)
                         (isArchived n) (Some true) (Some now) (createdAt n)
                         (reminder n)]>
             (notes s))
          (next_oid s),
     send 200 (text "Note Moved to Trash")).
Proof.
  intros Hn Hv. unfold trashNote.
  by rewrite (findOneAndUpdate_hit _ _ _ _ n), apply_update_trash.
Qed.

Lemma trashNote_miss s now i v :
  (∀ n, notes s !! i = Some n → userId n ≠ v) →
  trashNote now i v s = (s, note_not_found).
Proof.
  intros Hno. unfold trashNote.
  rewrite findOneAndUpdate_miss by done. by rewrite db_eta.
Qed.

Lemma updateNote_cases s i v b :
  (∃ n, notes s !! i = Some n ∧ userId n = v) ∨
  updateNote i b v s = (s, note_not_found).
Proof.
  destruct (notes s !! i) as [n |] eqn:E.
  - destruct (decide (userId n = v)); [left; by exists n | right].
    apply updateNote_miss. congruence.
  - right. apply updateNote_miss. congruence.
Qed.

Lemma trashNote_cases s now i v :
  (∃ n, notes s !! i = Some n ∧ userId n = v) ∨
  trashNote now i v s = (s, note_not_found).
Proof.
  destruct (notes s !! i) as [n |] eqn:E.
  - destruct (decide (userId n = v)); [left; by exists n | right].
    apply trashNote_miss. congruence.
  - right. apply trashNote_miss. congruence.
Qed.

(** A note of the state after an event was there before, or has just been
    created, overwritten by its owner's [PUT], or moved to the trash by its
    owner's [DELETE]. *)
Lemma step_provenance e s k n' :
  notes (step e s) !! k = Some n' →
  notes s !! k = Some n' ∨
  (∃ now salt v b,
     e = request now salt (POST_notes (valid_token v) b) ∧
     k = next_oid s ∧
     n' = mkNote v (b_title b) (b_content b) (Some (default [] (b_tags b)))
                 (b_color b) (Some false) (Some false) None now
                 (b_reminder b)) ∨
  (∃ now salt n b,
     e = request now salt (PUT_notes_id (valid_token (userId n)) k b) ∧
     notes s !! k = Some n ∧
     n' = mkNote (userId n) (written (b_title b) (title n))
                 (written (b_content b) (content n))
                 (written (b_tags b) (tags n)) (written (b_color b) (color n))
                 (written (b_isArchived b) (isArchived n))
                 (written (b_isTrashed b) (isTrashed n)) (deletedAt n)
                 (createdAt n) (written (b_reminder b) (reminder n))) ∨
  (∃ now salt n,
     e = request now salt (DELETE_notes_id (valid_token (userId n)) k) ∧
     notes s !! k = Some n ∧
     n' = mkNote (userId n) (title n) (content n) (tags n) (color n)
                 (isArchived n) (Some true) (Some now) (createdAt n)
                 (reminder n)).
Proof.
  destruct e as [now salt r | now]; simpl.
  2: { intros [H _]%lookup_deleteMany. by left. }
  destruct r as [u p | u p | a b | a | a q | a | a t | a | a id b | a id
                | a | a]; simpl;
    try (destruct a as [| | v]; simpl; try (by left)).
  - unfold register. destruct p; simpl; [| by left].
    destruct (username_taken _ _); simpl; by left.
  - unfold login. destruct (findOne_username _ _) as [[uid [? ?]] |];
      simpl; [| by left].
    destruct (negb _); simpl; by left.
  - intros H. destruct (decide (k = next_oid s)) as [-> | Hne].
    + rewrite lookup_insert_eq in H. injection H as <-.
      right. left. by exists now, salt, v, b.
    + rewrite lookup_insert_ne in H by done. by left.
  - destruct (updateNote_cases s id v b) as [(n & Hn & Hv) | ->];
      [| by left].
    rewrite (updateNote_hit s id v b n Hn Hv). simpl. intros H.
    destruct (decide (k = id)) as [-> | Hne].
    + rewrite lookup_insert_eq in H. injection H as <-.
      right. right. left. exists now, salt, n, b. by rewrite Hv.
    + rewrite lookup_insert_ne in H by done. by left.
  - destruct (trashNote_cases s now id v) as [(n & Hn & Hv) | ->];
      [| by left].
    rewrite (trashNote_hit s now id v n Hn Hv). simpl. intros H.
    destruct (decide (k = id)) as [-> | Hne].
    + rewrite lookup_insert_eq in H. injection H as <-.
      right. right. right. exists now, salt, n. by rewrite Hv.
    + rewrite lookup_insert_ne in H by done. by left.
  - intros [H _]%lookup_deleteMany. by left.
Qed.

(** [ObjectId]s are handed out in increasing order. *)
Lemma step_next_oid e s : (next_oid s ≤ next_oid (step e s))%N.
Proof.
  destruct e as [now salt r | now]; simpl; [| done].
  destruct r as [u p | u p | a b | a | a q | a | a t | a | a id b | a id
                | a | a]; simpl;
    try (destruct a as [| | v]; simpl; try done).
  - unfold register. destruct p; simpl; [| done].
    destruct (username_taken _ _); simpl; lia.
  - unfold login. destruct (findOne_username _ _) as [[uid [? ?]] |];
      simpl; [| done].
    destruct (negb _); simpl; done.
  - lia.
  - destruct (updateNote_cases s id v b) as [(n & Hn & Hv) | ->]; [| done].
    by rewrite (updateNote_hit s id v b n Hn Hv).
  - destruct (trashNote_cases s now id v) as [(n & Hn & Hv) | ->];
      [| done].
    by rewrite (trashNote_hit s now id v n Hn Hv).
Qed.

Lemma run_cons e es s : run (e :: es) s = run es (step e s).
Proof. done. Qed.

End provenance.

(** ** Per-user isolation *)

Section isolation.
Context `{host : Host}.
Implicit Types (s : Db) (k i v : ObjectId) (n : Note) (e : Event).

(** Every handler's filter starts with [userId: req.userId]. *)
Lemma find_owner v f c k n :
  (k, n) ∈ find (by_userId v :: f) c → c !! k = Some n ∧ userId n = v.
Proof.
  rewrite elem_of_find. simpl. rewrite andb_true_iff, N.eqb_eq. tauto.
Qed.

(** The owner of a note never changes, and its key is never handed out
    again. *)
Lemma owner_kept v i es s :
  (i < next_oid s)%N →
  (∀ n, notes s !! i = Some n → userId n = v) →
  (i < next_oid (run es s))%N ∧
  (∀ n, notes (run es s) !! i = Some n → userId n = v).
Proof.
  revert s. induction es as [| e es IH]; intros s Hlt Hown; [done |].
  rewrite run_cons. apply IH.
  - pose proof (step_next_oid e s). lia.
  - intros n' Hn'.
    destruct (step_provenance e s i n' Hn')
      as [H | [(now & salt & u & b & _ & Hk & _)
         | [(now & salt & n & b & _ & Hn & ->)
           | (now & salt & n & _ & Hn & ->)]]]; simpl; eauto.
    lia.
Qed.

(** C1: let user A create a note, and let any events follow.  Whatever note
    is then stored under the new note's key is A's; for every other user B,
    [listActive], [search], [listByTag] and [listTrashed] called as B do not
    return it (each returns notes of B only), and [update] and [trash]
    called as B on its key answer 404 "Note not found" and change nothing. *)
Theorem owner_isolation s A B now0 b0 es :
  A ≠ B →
  let i := next_oid s in
  let s' := run es (createNote now0 b0 A s).1 in
  notes (createNote now0 b0 A s).1 !! i =
    Some (mkNote A (b_title b0) (b_content b0) (Some (default [] (b_tags b0)))
                 (b_color b0) (Some false) (Some false) None now0
                 (b_reminder b0)) ∧
  (∀ n, notes s' !! i = Some n → userId n = A) ∧
  (∀ k n q t,
     ((k, n) ∈ notes_of (getNotes B s').2 ∨
      (k, n) ∈ notes_of (searchNotes q B s').2 ∨
      (k, n) ∈ notes_of (getByTag t B s').2 ∨
      (k, n) ∈ notes_of (getTrashed B s').2) →
     notes s' !! k = Some n ∧ userId n = B ∧ k ≠ i) ∧
  (∀ b, updateNote i b B s' = (s', note_not_found)) ∧
  (∀ now, trashNote now i B s' = (s', note_not_found)).
Proof.
  intros HAB i s'.
  assert (Hinv : (i < next_oid s')%N ∧
                 ∀ n, notes s' !! i = Some n → userId n = A).
  { apply owner_kept; simpl; [lia |].
    intros n. rewrite lookup_insert_eq. by intros [= <-]. }
  destruct Hinv as [_ Hown].
  assert (Hnot : ∀ n, notes s' !! i = Some n → userId n ≠ B).
  { intros n Hn. rewrite (Hown n Hn). done. }
  split_and!.
  - simpl. apply lookup_insert_eq.
  - done.
  - intros k n q t Hin.
    assert (Hk : notes s' !! k = Some n ∧ userId n = B).
    { destruct Hin as [H | [H | [H | H]]]; by apply find_owner in H. }
    destruct Hk as [Hk HB]. split_and!; [done.. |].
    intros ->. by apply (Hnot n).
  - intros b. by apply updateNote_miss.
  - intros now. by apply trashNote_miss.
Qed.

End isolation.

Lemma owner_isolation_witness :
  updateNote 2%N no_fields 1%N demo_db = (demo_db, note_not_found) ∧
  trashNote 9000 2%N 1%N demo_db = (demo_db, note_not_found).
Proof.
  pose proof (owner_isolation (host := utc_host)
                (run (take 2 demo_events) empty_db) 0%N 1%N 3000 demo_body
                (drop 3 demo_events)) as H.
  destruct H as (_ & _ & _ & Hu & Ht); [done |].
  split; [apply (Hu no_fields) | apply (Ht 9000)].
Defined.

(** ** The [deletedAt] field *)

Section trashing.
Context `{host : Host}.
Implicit Types (s : Db) (k i v : ObjectId) (n : Note) (e : Event).

(** A [PUT] keeps every note in place, with its [deletedAt]. *)
Lemma updateNote_keeps_deletedAt s i v b k n :
  notes s !! k = Some n →
  ∃ n', notes (updateNote i b v s).1 !! k = Some n' ∧
        deletedAt n' = deletedAt n ∧ userId n' = userId n.
Proof.
  intros Hk.
  destruct (updateNote_cases s i v b) as [(m & Hm & Hv) | ->];
    [| by exists n].
  rewrite (updateNote_hit s i v b m Hm Hv). simpl.
  destruct (decide (k = i)) as [-> | Hne].
  - rewrite lookup_insert_eq. eexists. split; [done |].
    simpl. rewrite Hm in Hk. by injection Hk as ->.
  - rewrite lookup_insert_ne by done. by exists n.
Qed.

Lemma updates_keep_deletedAt es s k n :
  forallb is_update es = true →
  notes s !! k = Some n →
  ∃ n', notes (run es s) !! k = Some n' ∧ deletedAt n' = deletedAt n.
Proof.
  revert s n. induction es as [| e es IH]; intros s n Hes Hk;
    [by exists n |].
  simpl in Hes. apply andb_true_iff in Hes as [He Hes].
  rewrite run_cons.
  assert (Hstep : ∃ n1, notes (step e s) !! k = Some n1 ∧
                        deletedAt n1 = deletedAt n).
  { destruct e as [now salt r | now]; [| done].
    destruct r; try done. simpl.
    destruct a as [| | v]; simpl; [by exists n | by exists n |].
    destruct (updateNote_keeps_deletedAt s id v b k n Hk) as (n1 & ? & ? & _).
    by exists n1. }
  destruct Hstep as (n1 & Hn1 & Hd1).
  destruct (IH (step e s) n1 Hes Hn1) as (n' & Hn' & Hd').
  exists n'. split; [done | congruence].
Qed.

(** C3: [trash] ([DELETE /api/notes/:id]) on a note the caller owns answers
    "Note Moved to Trash" and sets [isTrashed] to [true] and [deletedAt] to
    the instant of the call, nothing else.  No other event writes
    [deletedAt]: after any event a note's [deletedAt] is what the note under
    that key had before, or null on a note just created, or the instant of
    its owner's [DELETE].  After the [trash], any number of [PUT]s, whatever
    their bodies ([isTrashed: false] included), leave the note's [deletedAt]
    at the instant of the [trash]. *)
Theorem trash_sole_writer_of_deletedAt s i v now n :
  notes s !! i = Some n → userId n = v →
  trashNote now i v s =
    (mkDb (users s)
          (<[i := mkNote (userId n) (title n) (content n) (tags n) (color n)
                         (isArchived n) (Some true) (Some now) (createdAt n)
                         (reminder n)]>
             (notes s))
          (next_oid s),
     send 200 (text "Note Moved to Trash")) ∧
  (∀ e s0 k n',
     notes (step e s0) !! k = Some n' →
     (∃ n0, notes s0 !! k = Some n0 ∧ deletedAt n' = deletedAt n0) ∨
     (∃ t salt u b, e = request t salt (POST_notes (valid_token u) b) ∧
        k = next_oid s0 ∧ deletedAt n' = None) ∨
     (∃ t salt n0, notes s0 !! k = Some n0 ∧
        e = request t salt (DELETE_notes_id (valid_token (userId n0)) k) ∧
        deletedAt n' = Some t)) ∧
  (∀ es, forallb is_update es = true →
     ∃ n', notes (run es (trashNote now i v s).1) !! i = Some n' ∧
           deletedAt n' = Some now) ∧
  (∀ s0 j w b k n0,
     notes s0 !! k = Some n0 →
     ∃ n', notes (updateNote j b w s0).1 !! k = Some n' ∧
           deletedAt n' = deletedAt n0).
Proof.
  intros Hn Hv. split_and!.
  - by apply trashNote_hit.
  - intros e s0 k n' Hn'.
    destruct (step_provenance e s0 k n' Hn')
      as [H | [(t & salt & u & b & He & Hk & ->)
         | [(t & salt & n0 & b & _ & Hn0 & ->)
           | (t & salt & n0 & He & Hn0 & ->)]]]; simpl.
    + left. by exists n'.
    + right. left. by exists t, salt, u, b.
    + left. by exists n0.
    + right. right. by exists t, salt, n0.
  - intros es Hes. rewrite (trashNote_hit s now i v n Hn Hv). simpl.
    match goal with
    | |- context [run es ?s1] =>
        destruct (updates_keep_deletedAt es s1 i _ Hes
                    ltac:(simpl; apply lookup_insert_eq)) as (n' & Hn' & Hd)
    end.
    by exists n'.
  - intros s0 j w b k n0 Hk.
    destruct (updateNote_keeps_deletedAt s0 j w b k n0 Hk) as (n' & ? & ? & _).
    by exists n'.
Qed.

End trashing.

Lemma trash_sole_writer_of_deletedAt_witness :
  ∃ n', notes (run [request 8000 EmptyString (PUT_notes_id (valid_token 1%N) 3%N
                                       demo_archive)]
                   (trashNote 7000 3%N 1%N demo_db).1) !! 3%N = Some n' ∧
        deletedAt n' = Some 7000.
Proof.
  apply (trash_sole_writer_of_deletedAt (host := utc_host)
        (@demo_db utc_host) 3%N 1%N 7000 demo_note3
           eq_refl eq_refl).
  reflexivity.
Defined.

(** ** Notes in the trash with no [deletedAt] *)

Section stale_trash.
Context `{host : Host}.
Implicit Types (s : Db) (k i v : ObjectId) (n : Note) (e : Event).






End stale_trash.



(** ** The account directory *)

Section accounts.
Context `{host : Host}.
Implicit Types (s : Db) (k : ObjectId) (x : User) (c : gmap ObjectId User).

Lemma findOne_username_Some name c k x :
  findOne_username name c = Some (k, x) →
  c !! k = Some x ∧ username x = Some name.
Proof.
  unfold findOne_username.
  destruct (list_find _ _) as [[j [k' x']] |] eqn:E; simpl; [| done].
  intros [= -> ->]. apply list_find_Some in E as (Hl & HP & _).
  apply list_elem_of_lookup_2, elem_of_map_to_list in Hl. done.
Qed.

Lemma findOne_username_None name c :
  findOne_username name c = None ↔
  ∀ k x, c !! k = Some x → username x ≠ Some name.
Proof.
  unfold findOne_username. rewrite fmap_None, list_find_None, Forall_forall.
  split.
  - intros Hall k x Hk. apply (Hall (k, x)). by apply elem_of_map_to_list.
  - intros Hall [k x] Hin. apply (Hall k x). by apply elem_of_map_to_list.
Qed.

Lemma username_taken_true name c :
  username_taken name c = true ↔ ∃ k x, c !! k = Some x ∧ username x = name.
Proof.
  unfold username_taken. rewrite bool_decide_eq_true, Exists_exists. split.
  - intros ([k x] & Hin & Hx). exists k, x.
    by apply elem_of_map_to_list in Hin.
  - intros (k & x & Hk & Hx). exists (k, x).
    split; [by apply elem_of_map_to_list | done].
Qed.

Lemma username_taken_false name c :
  username_taken name c = false ↔ ∀ k x, c !! k = Some x → username x ≠ name.
Proof.
  rewrite <- not_true_iff_false, username_taken_true. split.
  - intros Hno k x Hk Hx. apply Hno. by exists k, x.
  - intros Hall (k & x & Hk & Hx). by apply (Hall k x).
Qed.

(** C7: [authenticate] ([POST /api/login]) answers with one and the same
    400 "Invalid Username or Password", and changes nothing, both when no
    stored user has the username and when one has it but [bcrypt.compare]
    rejects the password against the stored hash; it has no other failure:
    any other answer is the 200 carrying the token of a user with that
    username whose hash accepts the password. *)
Theorem login_invalid_credentials s name pw :
  ((∀ k x, users s !! k = Some x → username x ≠ Some name) →
   login name pw s = (s, invalid_credentials)) ∧
  ((∃ k x, users s !! k = Some x ∧ username x = Some name) →
   (∀ k x, users s !! k = Some x → username x = Some name →
           bcrypt_compare pw (password x) = false) →
   login name pw s = (s, invalid_credentials)) ∧
  (login name pw s = (s, invalid_credentials) ∨
   ∃ k x, users s !! k = Some x ∧ username x = Some name ∧
          bcrypt_compare pw (password x) = true ∧
          login name pw s = (s, send 200 (json_token k))).
Proof.
  unfold login.
  destruct (findOne_username name (users s)) as [[k [xn xp]] |] eqn:E.
  - apply findOne_username_Some in E as [Hk Hx]. simpl in Hx.
    split_and!.
    + intros Hno. by destruct (Hno k _ Hk).
    + intros _ Hall. pose proof (Hall k _ Hk Hx) as Hc. simpl in Hc.
      by rewrite Hc.
    + destruct (bcrypt_compare pw xp) eqn:Hc; simpl; [right | by left].
      by exists k, (mkUser xn xp).
  - split_and!; [done | | by left].
    intros (k & x & Hk & Hx) _.
    by destruct (proj1 (findOne_username_None name (users s)) E k x Hk).
Qed.

(** C8, as the code has it: [register] ([POST /api/register]) checks
    neither that the username and the password are given nor that they are
    not empty, and has no validation error.  With a password (the empty
    string included) and a username that no stored user has (empty or left
    out included), it answers 201 "User Registered" and stores one new user;
    when a stored user has that username it answers 400 "Username already
    exists" and stores none.  With no password it stores none either:
    hashing fails before the [try] and no answer is sent. *)
Theorem register_no_validation s salt name pword :
  (∀ pw, pword = Some pw →
     (∀ k x, users s !! k = Some x → username x ≠ name) →
     register salt name pword s =
       (mkDb (<[next_oid s := mkUser name (bcrypt_hash salt pw)]> (users s))
             (notes s) (N.succ (next_oid s)),
        send 201 (text "User Registered"))) ∧
  (∀ pw, pword = Some pw →
     (∃ k x, users s !! k = Some x ∧ username x = name) →
     register salt name pword s =
       (mkDb (users s) (notes s) (N.succ (next_oid s)),
        send 400 (text "Username already exists"))) ∧
  (pword = None → register salt name pword s = (s, rejected)).
Proof.
  unfold register. split_and!.
  - intros pw -> Hfree.
    by rewrite (proj2 (username_taken_false name (users s)) Hfree).
  - intros pw -> Htaken.
    by rewrite (proj2 (username_taken_true name (users s)) Htaken).
  - by intros ->.
Qed.

(** C9: for every username that no stored user has and every password,
    [register] answers 201 and stores a user under a new key, and
    [authenticate] with the same pair, called next, answers 200 with the
    token of that key: the identity of the user just registered. *)
Theorem register_then_login s salt name pw :
  bcrypt_sound host →
  (∀ k x, users s !! k = Some x → username x ≠ Some name) →
  let r := register salt (Some name) (Some pw) s in
  r.2 = send 201 (text "User Registered") ∧
  users r.1 =
    <[next_oid s := mkUser (Some name) (bcrypt_hash salt pw)]> (users s) ∧
  login name pw r.1 = (r.1, send 200 (json_token (next_oid s))).
Proof.
  intros Hsound Hfree r. subst r. unfold register.
  rewrite (proj2 (username_taken_false (Some name) (users s)) Hfree).
  simpl. split_and!; [done | done |].
  unfold login. simpl.
  destruct (findOne_username name _) as [[k [xn xp]] |] eqn:E.
  - apply findOne_username_Some in E as [Hk Hx]. simpl in Hx.
    destruct (decide (k = next_oid s)) as [-> | Hne].
    + rewrite lookup_insert_eq in Hk. injection Hk as <- <-.
      by rewrite Hsound.
    + rewrite lookup_insert_ne in Hk by done.
      by destruct (Hfree k _ Hk).
  - exfalso.
    apply (proj1 (findOne_username_None name _) E (next_oid s)
             (mkUser (Some name) (bcrypt_hash salt pw)));
      [apply lookup_insert_eq | done].
Qed.

End accounts.

(** ** The model run on the UTC host *)

Lemma toy_compare_hash salt pw : toy_compare pw (toy_hash salt pw) = true.
Proof.
  unfold toy_compare, toy_hash.
  induction pw as [| a pw IH]; simpl.
  - by destruct salt.
  - by destruct (Ascii.ascii_dec a a).
Qed.

Lemma utc_host_bcrypt_sound : bcrypt_sound utc_host.
Proof. intros salt pw. apply toy_compare_hash. Qed.

Lemma login_invalid_credentials_witness :
  login "carol" "pw-c" demo_db = (demo_db, invalid_credentials) ∧
  login "alice" "wrong" demo_db = (demo_db, invalid_credentials).
Proof.
  destruct (login_invalid_credentials (host := utc_host) (@demo_db utc_host)
              "carol" "pw-c") as (H1 & _ & _).
  destruct (login_invalid_credentials (host := utc_host) (@demo_db utc_host)
              "alice" "wrong") as (_ & H2 & _).
  split.
  - apply H1.
    apply (bool_decide_unpack
             (map_Forall (λ _ x, username x ≠ Some "carol")
                       (users (@demo_db utc_host)))).
    vm_compute. exact I.
  - apply H2.
    + exists 0%N, (mkUser (Some "alice") "pw-a$s1"). split; reflexivity.
    + apply (bool_decide_unpack
               (map_Forall (λ _ x, username x = Some "alice" →
                                   bcrypt_compare "wrong" (password x) = false)
                           (users (@demo_db utc_host)))).
      vm_compute. exact I.
Defined.

(** C8 as stated fails: with an empty username and an empty password,
    [register] answers 201 "User Registered" and stores a user. *)
Lemma register_accepts_empty_fields :
  users empty_db !! 0%N = None ∧
  (register "salt" (Some EmptyString) (Some EmptyString) empty_db).2 =
    send 201 (text "User Registered") ∧
  users (register "salt" (Some EmptyString) (Some EmptyString) empty_db).1 !! 0%N =
    Some (mkUser (Some EmptyString) "$salt").
Proof. vm_compute. done. Qed.

Lemma register_no_validation_witness :
  register "salt" None (Some EmptyString) empty_db =
    (mkDb {[0%N := mkUser None "$salt"]} ∅ 1%N,
     send 201 (text "User Registered")) ∧
  register "s3" (Some "alice") (Some "pw") demo_db =
    (mkDb (users demo_db) (notes demo_db) 5%N,
     send 400 (text "Username already exists")) ∧
  register "salt" (Some "dave") None demo_db = (demo_db, rejected).
Proof.
  destruct (register_no_validation (host := utc_host) empty_db "salt" None
              (Some EmptyString))
    as (H1 & _ & _).
  destruct (register_no_validation (host := utc_host) (@demo_db utc_host)
              "s3" (Some "alice") (Some "pw"))
    as (_ & H2 & _).
  destruct (register_no_validation (host := utc_host) (@demo_db utc_host)
              "salt" (Some "dave") None)
    as (_ & _ & H3).
  split_and!.
  - rewrite (H1 EmptyString eq_refl); [reflexivity |].
    intros k x Hk. simpl in Hk. by rewrite lookup_empty in Hk.
  - rewrite (H2 "pw" eq_refl); [reflexivity |].
    exists 0%N, (mkUser (Some "alice") "pw-a$s1"). split; reflexivity.
  - apply H3. reflexivity.
Defined.

Lemma register_then_login_witness :
  login "carol" "pw-c"
        (register "s3" (Some "carol") (Some "pw-c") demo_db).1 =
    ((register "s3" (Some "carol") (Some "pw-c") demo_db).1,
     send 200 (json_token 4%N)).
Proof.
  apply (register_then_login (host := utc_host)
        (@demo_db utc_host) "s3" "carol" "pw-c"
           utc_host_bcrypt_sound).
  apply (bool_decide_unpack
           (map_Forall (λ _ x, username x ≠ Some "carol")
                       (users (@demo_db utc_host)))).
  vm_compute. exact I.
Defined.

(** ** Invariants of the reachable states *)

Section invariants.
Context `{host : Host}.
Implicit Types (s : Db) (k i v : ObjectId) (n : Note) (x : User) (e : Event).

Lemma updateNote_users s i v b : users (updateNote i b v s).1 = users s.
Proof.
  unfold updateNote. by destruct (findOneAndUpdate _ _ _) as [c [m |]].
Qed.

Lemma trashNote_users s now i v : users (trashNote now i v s).1 = users s.
Proof.
  unfold trashNote. by destruct (findOneAndUpdate _ _ _) as [c [m |]].
Qed.

(** The users after an event: [POST /api/register] with a password and a
    free username adds one, and nothing else touches them. *)
Lemma step_users e s :
  users (step e s) =
    match e with
    | request _ salt (POST_register name (Some pw)) =>
        if username_taken name (users s) then users s
        else <[next_oid s := mkUser name (bcrypt_hash salt pw)]> (users s)
    | _ => users s
    end.
Proof.
  destruct e as [now salt r | now]; simpl; [| done].
  destruct r as [u p | u p | a b | a | a q | a | a t | a | a id b | a id
                | a | a]; simpl;
    try (destruct a as [| | v]; simpl; try done).
  - unfold register. destruct p; simpl; [| done].
    by destruct (username_taken _ _).
  - unfold login. destruct (findOne_username _ _) as [[uid [? ?]] |];
      simpl; [| done].
    by destruct (negb _).
  - apply updateNote_users.
  - apply trashNote_users.
Qed.

Lemma step_keeps_user e s k x :
  (∀ k' x', users s !! k' = Some x' → (k' < next_oid s)%N) →
  users s !! k = Some x → users (step e s) !! k = Some x.
Proof.
  intros Hkeys Hk. rewrite step_users.
  destruct e as [now salt [name [pw |] | | | | | | | | | | |] | now]; try done.
  destruct (username_taken _ _); [done |].
  rewrite lookup_insert_ne; [done |].
  intros <-. specialize (Hkeys _ _ Hk). lia.
Qed.

Lemma db_ok_empty : db_ok empty_db.
Proof.
  unfold db_ok, empty_db. simpl. split_and!; intros *; by rewrite lookup_empty.
Qed.

Lemma db_ok_step e s : db_ok s → db_ok (step e s).
Proof.
  intros (Hu & Hn & Huniq). pose proof (step_next_oid e s) as Hmono.
  assert (Husers : ∀ k x, users (step e s) !! k = Some x →
            users s !! k = Some x ∨
            (k = next_oid s ∧ (next_oid s < next_oid (step e s))%N ∧
             ∀ k' x', users s !! k' = Some x' → username x' ≠ username x)).
  { intros k x. rewrite step_users.
    destruct e as [now salt [name [pw |] | | | | | | | | | | |] | now];
      try (by left).
    destruct (username_taken name (users s)) eqn:Et; [by left |].
    destruct (decide (k = next_oid s)) as [-> | Hne].
    - rewrite lookup_insert_eq. intros [= <-]. right.
      split_and!; [done | |].
      + simpl. unfold register. rewrite Et. simpl. lia.
      + simpl. by apply username_taken_false.
    - rewrite lookup_insert_ne by done. by left. }
  split_and!.
  - intros k x Hk. destruct (Husers k x Hk) as [H | (-> & Hlt & _)]; [| done].
    specialize (Hu _ _ H). lia.
  - intros k n Hk.
    destruct (step_provenance e s k n Hk)
      as [H | [(now & salt & v & b & -> & -> & _)
         | [(now & salt & n0 & b & _ & H & _)
           | (now & salt & n0 & _ & H & _)]]];
      try (specialize (Hn _ _ H); lia).
    simpl. lia.
  - intros k1 k2 x1 x2 H1 H2 Heq.
    destruct (Husers k1 x1 H1) as [H1' | (-> & _ & Hf1)],
             (Husers k2 x2 H2) as [H2' | (-> & _ & Hf2)].
    + by apply (Huniq k1 k2 x1 x2).
    + by destruct (Hf2 k1 x1 H1').
    + by destruct (Hf1 k2 x2 H2').
    + done.
Qed.

Lemma db_ok_run es s : db_ok s → db_ok (run es s).
Proof.
  revert s. induction es as [| e es IH]; intros s Hs; [done |].
  rewrite run_cons. by apply IH, db_ok_step.
Qed.

Lemma run_next_oid es s : (next_oid s ≤ next_oid (run es s))%N.
Proof.
  revert s. induction es as [| e es IH]; intros s; [done |].
  rewrite run_cons. pose proof (step_next_oid e s). specialize (IH (step e s)).
  lia.
Qed.

Lemma run_keeps_user es s k x :
  db_ok s → users s !! k = Some x → users (run es s) !! k = Some x.
Proof.
  revert s. induction es as [| e es IH]; intros s Hs Hk; [done |].
  rewrite run_cons. apply IH; [by apply db_ok_step |].
  apply step_keeps_user; [apply Hs | done].
Qed.

End invariants.

(** ** Accounts over time *)

Section accounts_over_time.
Context `{host : Host}.
Implicit Types (s : Db) (k i v : ObjectId) (n : Note) (x : User) (e : Event).

Lemma login_of_user s k x name pw :
  db_ok s → users s !! k = Some x → username x = Some name →
  login name pw s =
    (s, if bcrypt_compare pw (password x) then send 200 (json_token k)
        else invalid_credentials).
Proof.
  intros (_ & _ & Huniq) Hk Hx. unfold login.
  destruct (findOne_username name (users s)) as [[k' [xn xp]] |] eqn:E.
  - apply findOne_username_Some in E as [Hk' Hx'].
    assert (k' = k) as -> by (apply (Huniq _ _ _ _ Hk' Hk); congruence).
    rewrite Hk in Hk'. injection Hk' as ->. simpl.
    by destruct (bcrypt_compare pw xp).
  - by destruct (proj1 (findOne_username_None name (users s)) E k x Hk).
Qed.

(** X1: in every state reached from the empty database, two different
    stored users have different [username]s (an absent one counting as a
    value of its own). *)
Theorem reachable_usernames_unique es k1 k2 x1 x2 :
  users (run es empty_db) !! k1 = Some x1 →
  users (run es empty_db) !! k2 = Some x2 →
  k1 ≠ k2 → username x1 ≠ username x2.
Proof.
  destruct (db_ok_run es empty_db db_ok_empty) as (_ & _ & Huniq).
  intros H1 H2 Hne Heq. apply Hne. by apply (Huniq k1 k2 x1 x2).
Qed.

(** X2: a stored user is never removed or changed: whatever events follow,
    the same record stays under the same key. *)
Theorem user_never_changes es s k x :
  db_ok s → users s !! k = Some x → users (run es s) !! k = Some x.
Proof.
  revert s. induction es as [| e es IH]; intros s Hs Hk; [done |].
  rewrite run_cons. apply IH; [by apply db_ok_step |].
  rewrite step_users.
  destruct e as [now salt [name [pw |] | | | | | | | | | | |] | now]; try done.
  destruct (username_taken _ _); [done |].
  rewrite lookup_insert_ne; [done |].
  intros <-. destruct Hs as (Hkeys & _). specialize (Hkeys _ _ Hk). lia.
Qed.

(** X3: after a successful registration, whatever events follow, logging in
    with the same username and password answers 200 with the token of the
    key the registration drew. *)
Theorem login_after_any_events s salt name pw es :
  bcrypt_sound host → db_ok s →
  (∀ k x, users s !! k = Some x → username x ≠ Some name) →
  let s1 := (register salt (Some name) (Some pw) s).1 in
  login name pw (run es s1) =
    (run es s1, send 200 (json_token (next_oid s))).
Proof.
  intros Hsound Hs Hfree s1.
  assert (Hs1 : db_ok s1)
    by apply (db_ok_step (request 0 salt (POST_register (Some name) (Some pw)))
                s Hs).
  assert (H1 : users s1 !! next_oid s =
               Some (mkUser (Some name) (bcrypt_hash salt pw))).
  { subst s1. unfold register.
    rewrite (proj2 (username_taken_false (Some name) (users s)) Hfree).
    simpl. apply lookup_insert_eq. }
  rewrite (login_of_user (run es s1) (next_oid s) _ name pw
             (db_ok_run es s1 Hs1) (run_keeps_user es s1 _ _ Hs1 H1) eq_refl).
  simpl. by rewrite Hsound.
Qed.

(** X4: once a username is stored, every later registration with it,
    whatever the password, answers 400 "Username already exists" and stores
    no user. *)
Theorem username_stays_taken es s k x salt pw :
  db_ok s → users s !! k = Some x →
  register salt (username x) (Some pw) (run es s) =
    (mkDb (users (run es s)) (notes (run es s))
          (N.succ (next_oid (run es s))),
     send 400 (text "Username already exists")).
Proof.
  intros Hs Hk. unfold register.
  rewrite (proj2 (username_taken_true (username x) (users (run es s)))); [done |].
  exists k, x. split; [by apply run_keeps_user | done].
Qed.

(** X5: under the unique index, [POST /api/login] is decided by the one
    stored user with the username: 200 with the token of its key when
    [bcrypt.compare] accepts the password against its hash, 400 otherwise;
    the database is not changed. *)
Theorem login_decided_by_stored_hash s k x name pw :
  db_ok s → users s !! k = Some x → username x = Some name →
  login name pw s =
    (s, if bcrypt_compare pw (password x) then send 200 (json_token k)
        else invalid_credentials).
Proof.
  intros (_ & _ & Huniq) Hk Hx. unfold login.
  destruct (findOne_username name (users s)) as [[k' [xn xp]] |] eqn:E.
  - apply findOne_username_Some in E as [Hk' Hx'].
    assert (k' = k) as -> by (apply (Huniq _ _ _ _ Hk' Hk); congruence).
    rewrite Hk in Hk'. injection Hk' as ->. simpl.
    by destruct (bcrypt_compare pw xp).
  - exfalso.
    by apply (proj1 (findOne_username_None name (users s)) E k x Hk).
Qed.

End accounts_over_time.

(** ** Notes over time *)

Section notes_over_time.
Context `{host : Host}.
Implicit Types (s : Db) (k i v : ObjectId) (n : Note) (x : User) (e : Event).

Lemma run_keeps_absent es s i :
  (i < next_oid s)%N → notes s !! i = None → notes (run es s) !! i = None.
Proof.
  revert s. induction es as [| e es IH]; intros s Hlt Hi; [done |].
  rewrite run_cons. apply IH.
  - pose proof (step_next_oid e s). lia.
  - destruct (notes (step e s) !! i) as [n' |] eqn:E; [| done].
    destruct (step_provenance e s i n' E)
      as [H | [(now & salt & v & b & _ & -> & _)
         | [(now & salt & n0 & b & _ & H & _)
           | (now & salt & n0 & _ & H & _)]]]; try congruence.
    lia.
Qed.

(** X6: a key that was handed out and holds no note (the note was purged,
    or the key went to a user) never holds a note again. *)
Theorem deleted_note_never_returns es s i :
  (i < next_oid s)%N → notes s !! i = None → notes (run es s) !! i = None.
Proof.
  revert s. induction es as [| e es IH]; intros s Hlt Hi; [done |].
  rewrite run_cons. pose proof (step_next_oid e s) as Hmono.
  apply IH; [lia |].
  apply eq_None_not_Some. intros [n' E].
  destruct (step_provenance e s i n' E)
    as [H | [(now & salt & v & b & _ & Hfresh & _)
       | [(now & salt & n0 & b & _ & H & _)
         | (now & salt & n0 & _ & H & _)]]]; [congruence | lia | congruence..].
Qed.

(** X7: as long as a note is stored, its owner and its [createdAt] are
    those it was created with: no event changes them. *)
Theorem owner_and_createdAt_fixed es s i n n' :
  (i < next_oid s)%N → notes s !! i = Some n →
  notes (run es s) !! i = Some n' →
  userId n' = userId n ∧ createdAt n' = createdAt n.
Proof.
  revert s n. induction es as [| e es IH]; intros s n Hlt Hi Hrun.
  - simpl in Hrun. rewrite Hi in Hrun. by injection Hrun as <-.
  - rewrite run_cons in Hrun.
    assert (Hlt' : (i < next_oid (step e s))%N)
      by (pose proof (step_next_oid e s); lia).
    destruct (notes (step e s) !! i) as [n1 |] eqn:E.
    + destruct (IH (step e s) n1 Hlt' E Hrun) as [Hu Hc].
      rewrite Hu, Hc.
      destruct (step_provenance e s i n1 E)
        as [H | [(now & salt & v & b & _ & -> & _)
           | [(now & salt & n0 & b & _ & H & ->)
             | (now & salt & n0 & _ & H & ->)]]];
        [| lia | |]; rewrite Hi in H; by injection H as <-.
    + by rewrite (run_keeps_absent es (step e s) i Hlt' E) in Hrun.
Qed.

(** X8: a request to a notes route without a token is answered 403 "Token
    is required", and one whose token does not verify 401 "Invalid Token";
    neither reads nor changes the database. *)
Theorem notes_routes_need_token now salt r s :
  (auth_of r = Some no_token →
   serve now salt r s = (s, send 403 (text "Token is required"))) ∧
  (auth_of r = Some invalid_token →
   serve now salt r s = (s, send 401 (text "Invalid Token"))).
Proof.
  split; intros Ha; destruct r; simpl in *; try done;
    injection Ha as ->; done.
Qed.

End notes_over_time.

(** ** What the lists hold *)

Section lists.
Context `{host : Host}.
Implicit Types (s : Db) (k i v : ObjectId) (n : Note) (x : User) (e : Event).

Lemma matches_active v k n :
  matches [by_userId v; by_isTrashed false] k n = true ↔
  userId n = v ∧ isTrashed n = Some false.
Proof.
  simpl. rewrite !andb_true_iff, N.eqb_eq.
  destruct (isTrashed n) as [[] |]; simpl; intuition congruence.
Qed.

Lemma existsb_string_eqb t (l : list string) :
  existsb (string_eqb t) l = true ↔ t ∈ l.
Proof.
  rewrite existsb_exists. unfold string_eqb. split.
  - intros (y & Hy%list_elem_of_In & Heq%bool_decide_eq_true). by subst.
  - intros Hin. exists t. split; [by apply list_elem_of_In |].
    by apply bool_decide_eq_true.
Qed.

Lemma matches_tag v t k n :
  matches [by_userId v; by_tags t; by_isTrashed false] k n = true ↔
  userId n = v ∧ isTrashed n = Some false ∧ ∃ l, tags n = Some l ∧ t ∈ l.
Proof.
  simpl. rewrite !andb_true_iff, N.eqb_eq.
  destruct (tags n) as [l |]; simpl.
  - rewrite existsb_string_eqb.
    destruct (isTrashed n) as [[] |]; simpl; split;
      try (intros (? & ? & ? & ?); congruence);
      try (intros (? & ? & ?); congruence).
    + intros (? & ? & _). split_and!; [done.. |]. by exists l.
    + intros (? & _ & l' & [= <-] & ?). done.
  - split; [intros (_ & ? & _); congruence |].
    intros (_ & _ & l & ? & _). congruence.
Qed.

Lemma matches_reminders v now k n :
  matches [by_userId v; reminder_gte now; by_isTrashed false] k n = true ↔
  userId n = v ∧ isTrashed n = Some false ∧
  ∃ r, reminder n = Some r ∧ now ≤ r.
Proof.
  simpl. rewrite !andb_true_iff, N.eqb_eq.
  destruct (reminder n) as [r |]; simpl.
  - rewrite Z.leb_le.
    destruct (isTrashed n) as [[] |]; simpl; split;
      try (intros (? & ? & ? & ?); congruence);
      try (intros (? & ? & ?); congruence).
    + intros (? & ? & _). split_and!; [done.. |]. by exists r.
    + intros (? & _ & r' & [= <-] & ?). done.
  - split; [intros (_ & ? & _); congruence |].
    intros (_ & _ & r & ? & _). congruence.
Qed.

Lemma opt_test_true {A} (p : A → bool) (o : option A) :
  opt_test p o = true ↔ ∃ a, o = Some a ∧ p a = true.
Proof.
  destruct o as [a |]; simpl.
  - split; [by exists a | by intros (? & [= <-] & ?)].
  - split; [done | by intros (? & ? & _)].
Qed.

Lemma matches_search v q k n :
  matches [by_userId v; by_isTrashed false;
           or_ (title_regex q) (content_regex q)] k n = true ↔
  (userId n = v ∧ isTrashed n = Some false) ∧
  ((∃ t, title n = Some t ∧ regex_i q t = true) ∨
   (∃ c, content n = Some c ∧ regex_i q c = true)).
Proof.
  rewrite <- !opt_test_true. simpl.
  destruct (N.eqb (userId n) v) eqn:Eu;
    [apply N.eqb_eq in Eu | apply N.eqb_neq in Eu];
    destruct (isTrashed n) as [[] |]; simpl;
    destruct (opt_test (regex_i q) (title n)),
             (opt_test (regex_i q) (content n)); simpl;
    intuition congruence.
Qed.

(** X9: the active list ([GET /api/notes]) holds exactly the caller's notes
    whose [isTrashed] is [false] and the trash list ([GET
    /api/notes/trashed]) exactly those whose [isTrashed] is [true]; no note
    is in both, and a note whose [isTrashed] is null is in neither. *)
Theorem active_and_trashed_lists s v k n :
  ((k, n) ∈ notes_of (getNotes v s).2 ↔
   notes s !! k = Some n ∧ userId n = v ∧ isTrashed n = Some false) ∧
  ((k, n) ∈ notes_of (getTrashed v s).2 ↔
   notes s !! k = Some n ∧ userId n = v ∧ isTrashed n = Some true) ∧
  (¬ ((k, n) ∈ notes_of (getNotes v s).2 ∧
      (k, n) ∈ notes_of (getTrashed v s).2)) ∧
  (isTrashed n = None →
   ((k, n) ∉ notes_of (getNotes v s).2) ∧
   ((k, n) ∉ notes_of (getTrashed v s).2)).
Proof.
  unfold getNotes, getTrashed. simpl.
  rewrite !elem_of_find, matches_active, matches_trashed_of.
  split_and!; [done | done | |].
  - intros [(_ & _ & H1) (_ & _ & H2)]. congruence.
  - intros Hnull. split; intros (_ & _ & H); congruence.
Qed.

(** X10: [GET /api/notes/tag/:tag] answers with exactly the caller's notes
    that are not in the trash and have the tag among their tags, compared as
    whole strings; a note with no tags is never listed. *)
Theorem listByTag_exact s v t k n :
  ((k, n) ∈ notes_of (getByTag t v s).2 ↔
   notes s !! k = Some n ∧ userId n = v ∧ isTrashed n = Some false ∧
   ∃ l, tags n = Some l ∧ t ∈ l) ∧
  (tags n = None ∨ tags n = Some [] → (k, n) ∉ notes_of (getByTag t v s).2) ∧
  NoDup (notes_of (getByTag t v s).2).
Proof.
  unfold getByTag. simpl. rewrite elem_of_find, matches_tag.
  split_and!; [done | | apply NoDup_find].
  intros Hno (_ & _ & _ & l & Hl & Hin).
  destruct Hno as [Hno | Hno]; rewrite Hno in Hl; [done |].
  injection Hl as <-. by apply not_elem_of_nil in Hin.
Qed.

(** X11: [GET /api/notes/reminders] at instant [now] answers with exactly
    the caller's notes that are not in the trash and whose reminder is at
    [now] or later: a reminder at [now] is listed, one a millisecond earlier
    is not, and a note without a reminder never is. *)
Theorem listReminders_exact s v now k n :
  ((k, n) ∈ notes_of (getReminders now v s).2 ↔
   notes s !! k = Some n ∧ userId n = v ∧ isTrashed n = Some false ∧
   ∃ r, reminder n = Some r ∧ now ≤ r) ∧
  (reminder n = None ∨ reminder n = Some (now - 1) →
   (k, n) ∉ notes_of (getReminders now v s).2) ∧
  (notes s !! k = Some n → userId n = v → isTrashed n = Some false →
   reminder n = Some now → (k, n) ∈ notes_of (getReminders now v s).2).
Proof.
  unfold getReminders. simpl. rewrite elem_of_find, matches_reminders.
  split_and!; [done | |].
  - intros Hno (_ & _ & _ & r & Hr & Hle).
    destruct Hno as [Hno | Hno]; rewrite Hno in Hr; [done |].
    injection Hr as <-. lia.
  - intros. split_and!; [done.. |]. exists now. split; [done | lia].
Qed.

(** X12: [GET /api/notes/search] answers with exactly the notes of the
    active list whose title or content the pattern matches.  With a pattern
    that matches every string, it answers with the active list less the
    notes that have neither title nor content. *)
Theorem search_within_active s v q k n :
  ((k, n) ∈ notes_of (searchNotes q v s).2 ↔
   (k, n) ∈ notes_of (getNotes v s).2 ∧
   ((∃ t, title n = Some t ∧ regex_i q t = true) ∨
    (∃ c, content n = Some c ∧ regex_i q c = true))) ∧
  ((∀ t, regex_i q t = true) →
   ((k, n) ∈ notes_of (searchNotes q v s).2 ↔
    (k, n) ∈ notes_of (getNotes v s).2 ∧
    (title n ≠ None ∨ content n ≠ None))).
Proof.
  unfold searchNotes, getNotes. simpl.
  rewrite !elem_of_find, matches_search, matches_active.
  split; [tauto |].
  intros Hall. split.
  - intros (Hk & Hact & Hm). split; [tauto |].
    destruct Hm as [(t & Ht & _) | (c & Hc & _)]; [left | right]; congruence.
  - intros ((Hk & Hact) & Hsome). split_and!; [tauto.. |].
    destruct Hsome as [Ht | Hc].
    + left. destruct (title n) as [t |]; [| done]. by exists t.
    + right. destruct (content n) as [c |]; [| done]. by exists c.
Qed.

End lists.

(** ** The life of a note *)

Section lifecycle.
Context `{host : Host}.
Implicit Types (s : Db) (k i v w : ObjectId) (n m : Note) (b : NoteBody).

(** The active list, search, the tag list and the reminders only hold notes
    of the caller whose [isTrashed] is [false]. *)
Lemma active_lists_need_false s w q t now k m :
  (k, m) ∈ notes_of (getNotes w s).2 ∨
  (k, m) ∈ notes_of (searchNotes q w s).2 ∨
  (k, m) ∈ notes_of (getByTag t w s).2 ∨
  (k, m) ∈ notes_of (getReminders now w s).2 →
  notes s !! k = Some m ∧ userId m = w ∧ isTrashed m = Some false.
Proof.
  unfold getNotes, searchNotes, getByTag, getReminders. simpl.
  rewrite !elem_of_find, matches_active, matches_search, matches_tag,
    matches_reminders.
  tauto.
Qed.

Lemma deleteMany_comm f g (c : gmap ObjectId Note) :
  deleteMany f (deleteMany g c) = deleteMany g (deleteMany f c).
Proof.
  apply map_eq. intros k. apply option_eq. intros n.
  rewrite !lookup_deleteMany. tauto.
Qed.

(** X13: on a well-formed database, [POST /api/notes] answers "Note
    Created", keeps every stored note as it is, and adds one note under a
    new key: not archived, not in the trash, with a null [deletedAt] and
    [createdAt] at the instant of the call.  From then on the caller's
    active list holds it, and so does the caller's list for each of its tags;
    nobody's trash or archive does. *)
Theorem created_note_is_listed s now b v :
  db_ok s →
  let i := next_oid s in
  let n0 := mkNote v (b_title b) (b_content b) (Some (default [] (b_tags b)))
                   (b_color b) (Some false) (Some false) None now
                   (b_reminder b) in
  let s' := (createNote now b v s).1 in
  (createNote now b v s).2 = send 201 (text "Note Created") ∧
  notes s !! i = None ∧ notes s' !! i = Some n0 ∧
  (∀ k n, notes s !! k = Some n → notes s' !! k = Some n) ∧
  (∀ w k n, (k, n) ∈ notes_of (getNotes w s').2 ↔
            (k, n) ∈ notes_of (getNotes w s).2 ∨ (w = v ∧ k = i ∧ n = n0)) ∧
  (∀ t l, b_tags b = Some l → t ∈ l →
          (i, n0) ∈ notes_of (getByTag t v s').2) ∧
  (∀ w n, ((i, n) ∉ notes_of (getTrashed w s').2) ∧
          ((i, n) ∉ notes_of (getArchived w s').2)).
Proof.
  intros (_ & Hkeys & _) i n0 s'.
  assert (Hfresh : notes s !! i = None).
  { apply eq_None_not_Some. intros [n Hn]. specialize (Hkeys _ _ Hn).
    subst i. lia. }
  assert (Hi : notes s' !! i = Some n0) by (simpl; apply lookup_insert_eq).
  assert (Hother : ∀ k, k ≠ i → notes s' !! k = notes s !! k)
    by (intros k Hk; simpl; by rewrite lookup_insert_ne).
  split_and!; [done | done | done | | | |]; clearbody s'.
  - intros k n Hk. rewrite Hother; [done |]. intros ->. congruence.
  - intros w k n. unfold getNotes. simpl notes_of.
    rewrite !elem_of_find, !matches_active.
    destruct (decide (k = i)) as [-> | Hne].
    + rewrite Hi, Hfresh. split.
      * intros ([= <-] & <- & _). by right.
      * intros [(? & _) | (-> & _ & ->)]; [done |]. by split.
    + rewrite (Hother k Hne). split; [tauto |].
      intros [? | (_ & ? & _)]; [done | congruence].
  - intros t l Hl Hin. unfold getByTag. simpl notes_of.
    rewrite elem_of_find, matches_tag. split; [done |].
    split_and!; [done.. |]. exists l. subst n0. simpl. by rewrite Hl.
  - intros w n. unfold getTrashed, getArchived. simpl notes_of.
    rewrite !elem_of_find, matches_trashed_of, matches_archived, Hi.
    split; intros ([= <-] & _ & H); done.
Qed.

(** X14: after its owner moves a note to the trash, the owner's trash list
    holds it, and nobody's active list, search, tag list or reminders do. *)
Theorem trashed_note_moves_lists s now i v n :
  notes s !! i = Some n → userId n = v →
  let s' := (trashNote now i v s).1 in
  (i, mkNote (userId n) (title n) (content n) (tags n) (color n)
             (isArchived n) (Some true) (Some now) (createdAt n)
             (reminder n)) ∈ notes_of (getTrashed v s').2 ∧
  (∀ w q t now' m,
     ((i, m) ∉ notes_of (getNotes w s').2) ∧
     ((i, m) ∉ notes_of (searchNotes q w s').2) ∧
     ((i, m) ∉ notes_of (getByTag t w s').2) ∧
     ((i, m) ∉ notes_of (getReminders now' w s').2)).
Proof.
  intros Hn Hv s'. subst s'. rewrite (trashNote_hit s now i v n Hn Hv).
  split.
  - unfold getTrashed. simpl. rewrite elem_of_find, matches_trashed_of.
    split; [apply lookup_insert_eq | done].
  - intros w q t now' m.
    match goal with
    | |- context [getNotes w ?s1] =>
        pose proof (active_lists_need_false s1 w q t now' i m) as Hact
    end.
    simpl in Hact. rewrite lookup_insert_eq in Hact.
    split_and!; intros Hin;
      (destruct Hact as ([= <-] & _ & Hf); [tauto | done]).
Qed.

(** X15: a [PUT] with [isTrashed: false] brings a trashed note back: the
    owner's active list holds it again, its [deletedAt] still carries the
    instant of the trash, and neither the daily job, at any instant, nor
    the emptying of the trash removes it.  (Its other fields are those the
    [PUT] writes: the body's, and for a field the body leaves out null or
    the stored value, by the installed Mongoose.) *)
Theorem restored_note_is_safe s t0 i v n b :
  notes s !! i = Some n → userId n = v → b_isTrashed b = Some false →
  let s2 := (updateNote i b v (trashNote t0 i v s).1).1 in
  let n2 := mkNote (userId n) (written (b_title b) (title n))
                   (written (b_content b) (content n))
                   (written (b_tags b) (tags n))
                   (written (b_color b) (color n))
                   (written (b_isArchived b) (isArchived n)) (Some false)
                   (Some t0) (createdAt n)
                   (written (b_reminder b) (reminder n)) in
  notes s2 !! i = Some n2 ∧
  (i, n2) ∈ notes_of (getNotes v s2).2 ∧
  (∀ now, notes (purgeExpiredTrash now s2) !! i = Some n2) ∧
  notes (emptyTrash v s2).1 !! i = Some n2.
Proof.
  intros Hn Hv Hb s2 n2.
  assert (H2 : notes s2 !! i = Some n2).
  { subst s2. rewrite (trashNote_hit s t0 i v n Hn Hv). simpl.
    erewrite updateNote_hit; [| simpl; apply lookup_insert_eq | done].
    simpl. rewrite lookup_insert_eq, Hb. done. }
  split_and!; [done | | |].
  - unfold getNotes. simpl. rewrite elem_of_find, matches_active. done.
  - intros now. apply purgeExpiredTrash_lookup. split; [done |].
    by intros (? & _).
  - apply emptyTrash_lookup_Some. split; [done |]. by intros (_ & ?).
Qed.

(** X16: the thirty days run from the last [DELETE], not from the [PUT] that
    puts a note in the trash: a note once trashed at [t0], then put back and
    put in the trash again through [PUT]s, is removed by the daily job
    exactly when [t0] is no later than the job's [thirtyDaysAgo]. *)
Theorem stale_deletedAt_counts s t0 i v n b1 b2 now :
  notes s !! i = Some n → userId n = v → b_isTrashed b2 = Some true →
  let s3 := (updateNote i b2 v
               (updateNote i b1 v (trashNote t0 i v s).1).1).1 in
  (∃ n3, notes s3 !! i = Some n3 ∧ isTrashed n3 = Some true ∧
         deletedAt n3 = Some t0) ∧
  (notes (purgeExpiredTrash now s3) !! i = None ↔ t0 ≤ thirtyDaysAgo now).
Proof.
  intros Hn Hv Hb s3.
  assert (H3 : ∃ n3, notes s3 !! i = Some n3 ∧ isTrashed n3 = Some true ∧
                     deletedAt n3 = Some t0).
  { subst s3. rewrite (trashNote_hit s t0 i v n Hn Hv). simpl.
    erewrite (updateNote_hit _ i v b1); [| simpl; apply lookup_insert_eq | done].
    simpl.
    erewrite (updateNote_hit _ i v b2); [| simpl; apply lookup_insert_eq | done].
    simpl. rewrite lookup_insert_eq, Hb. eexists. split; [done |]. done. }
  split; [done |]. destruct H3 as (n3 & H3 & Ht3 & Hd3).
  destruct (purgeExpiredTrash_lookup now s3 i) as [HNone _].
  rewrite HNone, H3. split.
  - intros [? | (n' & t & [= <-] & _ & Hd' & Hle)]; [done |]. congruence.
  - intros Hle. right. by exists n3, t0.
Qed.

(** X17: a second [DELETE] restarts the thirty days: [deletedAt] is the
    instant of the last one. *)
Theorem retrash_resets_deletedAt s t1 t2 i v n now :
  notes s !! i = Some n → userId n = v →
  let s2 := (trashNote t2 i v (trashNote t1 i v s).1).1 in
  notes s2 !! i =
    Some (mkNote (userId n) (title n) (content n) (tags n) (color n)
                 (isArchived n) (Some true) (Some t2) (createdAt n)
                 (reminder n)) ∧
  (notes (purgeExpiredTrash now s2) !! i = None ↔ t2 ≤ thirtyDaysAgo now).
Proof.
  intros Hn Hv s2.
  assert (H2 : notes s2 !! i =
    Some (mkNote (userId n) (title n) (content n) (tags n) (color n)
                 (isArchived n) (Some true) (Some t2) (createdAt n)
                 (reminder n))).
  { subst s2. rewrite (trashNote_hit s t1 i v n Hn Hv). simpl.
    erewrite trashNote_hit; [| simpl; apply lookup_insert_eq | done].
    simpl. by rewrite lookup_insert_eq. }
  split; [done |].
  destruct (purgeExpiredTrash_lookup now s2 i) as [HNone _].
  rewrite HNone, H2. split.
  - intros [? | (n3 & t & [= <-] & _ & [= <-] & Hle)]; done.
  - intros Hle. right. eexists _, t2. done.
Qed.

End lifecycle.

(** ** Writes by key, and the two sweeps *)

Section writes.
Context `{host : Host}.
Implicit Types (s : Db) (k i v w : ObjectId) (n m : Note) (b : NoteBody).

(** X18: a note removed by the emptying of the trash is gone for good:
    whatever events follow, its key holds no note, and every [PUT] and
    [DELETE] on it, the former owner's included, answers 404 "Note not
    found" and changes nothing. *)
Theorem emptied_note_is_gone s v i n es :
  (i < next_oid s)%N → notes s !! i = Some n → userId n = v →
  isTrashed n = Some true →
  let s' := run es (emptyTrash v s).1 in
  notes s' !! i = None ∧
  (∀ w b now, updateNote i b w s' = (s', note_not_found) ∧
              trashNote now i w s' = (s', note_not_found)).
Proof.
  intros Hlt Hn Hv Ht s'.
  assert (Hgone : notes s' !! i = None).
  { apply run_keeps_absent; [done |].
    apply emptyTrash_lookup_None. right. by exists n. }
  split; [done |]. intros w b now.
  split; [apply updateNote_miss | apply trashNote_miss]; congruence.
Qed.

(** X19: what a [PUT] that leaves [isTrashed] out does to the flag is up
    to the installed Mongoose.  Where it writes undefined update keys as
    null, [isTrashed] becomes null and the note drops out of every list that
    looks at the flag (nobody's active list, search, tag list, reminders or
    trash list holds it), while neither the emptying of the trash nor the
    daily job removes it.  Where it drops them, [isTrashed] and [deletedAt]
    are as before, and the note is in the owner's active list, or trash
    list, exactly when its flag before the [PUT] was [false], or [true]. *)
Theorem update_without_isTrashed s i v n b :
  notes s !! i = Some n → userId n = v → b_isTrashed b = None →
  let s' := (updateNote i b v s).1 in
  (omitUndefined = false →
   ∃ n', notes s' !! i = Some n' ∧ isTrashed n' = None ∧
     (∀ w q t now m,
        ((i, m) ∉ notes_of (getNotes w s').2) ∧
        ((i, m) ∉ notes_of (searchNotes q w s').2) ∧
        ((i, m) ∉ notes_of (getByTag t w s').2) ∧
        ((i, m) ∉ notes_of (getReminders now w s').2) ∧
        ((i, m) ∉ notes_of (getTrashed w s').2)) ∧
     notes (emptyTrash v s').1 !! i = Some n' ∧
     (∀ now, notes (purgeExpiredTrash now s') !! i = Some n')) ∧
  (omitUndefined = true →
   ∃ n', notes s' !! i = Some n' ∧ isTrashed n' = isTrashed n ∧
     deletedAt n' = deletedAt n ∧
     ((i, n') ∈ notes_of (getNotes v s').2 ↔ isTrashed n = Some false) ∧
     ((i, n') ∈ notes_of (getTrashed v s').2 ↔ isTrashed n = Some true)).
Proof.
  intros Hn Hv Hb s'.
  assert (Hi : ∃ n', notes s' !! i = Some n' ∧ userId n' = v ∧
                     isTrashed n' = written None (isTrashed n) ∧
                     deletedAt n' = deletedAt n).
  { subst s'. rewrite (updateNote_hit s i v b n Hn Hv). simpl.
    rewrite lookup_insert_eq, Hb. eexists. split; [done |]. done. }
  destruct Hi as (n' & Hi & Hv' & Ht' & Hd'). clearbody s'.
  rewrite written_None in Ht'. split; intros Hom; rewrite Hom in Ht'.
  - exists n'. split_and!; [done | done | | |].
    + intros w q t now m.
      pose proof (active_lists_need_false s' w q t now i m) as Hact.
      rewrite Hi in Hact.
      split_and!; intros Hin;
        try (destruct Hact as ([= <-] & _ & Hf); [tauto | congruence]).
      unfold getTrashed in Hin. simpl in Hin.
      apply elem_of_find in Hin as [Hm (_ & Hf)%matches_trashed_of].
      rewrite Hi in Hm. injection Hm as <-. congruence.
    + apply emptyTrash_lookup_Some. split; [done |].
      intros (_ & ?). congruence.
    + intros now. apply purgeExpiredTrash_lookup. split; [done |].
      intros (? & _). congruence.
  - exists n'. split_and!; [done | done | done | |].
    + unfold getNotes. simpl notes_of.
      rewrite elem_of_find, matches_active, Ht'. tauto.
    + unfold getTrashed. simpl notes_of.
      rewrite elem_of_find, matches_trashed_of, Ht'. tauto.
Qed.

(** X20: the daily job run twice at the same instant does what one run
    does, and the job and the emptying of a trash can be done in either
    order with the same outcome. *)
Theorem sweeps_compose now v s :
  purgeExpiredTrash now (purgeExpiredTrash now s) = purgeExpiredTrash now s ∧
  purgeExpiredTrash now (emptyTrash v s).1 =
    (emptyTrash v (purgeExpiredTrash now s)).1.
Proof.
  unfold purgeExpiredTrash, emptyTrash. simpl. split.
  - by rewrite deleteMany_twice.
  - f_equal. apply deleteMany_comm.
Qed.

(** X21: on any host, the job's [thirtyDaysAgo] is [now] less 30 days of
    24 hours, corrected by the difference between the zone's offset at [now]
    and its offset at the local time thirty days back. *)
Theorem thirtyDaysAgo_offsets now :
  thirtyDaysAgo now =
    now - 30 * msPerDay + LocalTZA now true
    - LocalTZA (now + LocalTZA now true - 30 * msPerDay) false.
Proof.
  unfold thirtyDaysAgo, setDate_back, UTC, LocalTime, MakeDate, Day,
    TimeWithinDay.
  pose proof (Z.div_mod (now + LocalTZA now true) msPerDay) as Hdm.
  assert (Heq : ((now + LocalTZA now true) `div` msPerDay - 30) * msPerDay
                + (now + LocalTZA now true) `mod` msPerDay
                = now + LocalTZA now true - 30 * msPerDay)
    by (unfold msPerDay in *; lia).
  rewrite Heq. lia.
Qed.

(** X22: [PUT] and [DELETE] on a key answer 200 exactly when the key holds
    a note of the caller; in every other case (no note under the key, or a
    note of somebody else) they answer 404 "Note not found" and change
    nothing. *)
Theorem update_and_trash_answers s i v b now :
  ((updateNote i b v s).2 = send 200 (text "Note Updated") ↔
   ∃ n, notes s !! i = Some n ∧ userId n = v) ∧
  ((trashNote now i v s).2 = send 200 (text "Note Moved to Trash") ↔
   ∃ n, notes s !! i = Some n ∧ userId n = v) ∧
  ((¬ ∃ n, notes s !! i = Some n ∧ userId n = v) →
   updateNote i b v s = (s, note_not_found) ∧
   trashNote now i v s = (s, note_not_found)).
Proof.
  split_and!.
  - split.
    + intros H200.
      destruct (updateNote_cases s i v b) as [Hex | Hmiss]; [done |].
      by rewrite Hmiss in H200.
    + intros (n & Hn & Hv). by rewrite (updateNote_hit s i v b n Hn Hv).
  - split.
    + intros H200.
      destruct (trashNote_cases s now i v) as [Hex | Hmiss]; [done |].
      by rewrite Hmiss in H200.
    + intros (n & Hn & Hv). by rewrite (trashNote_hit s now i v n Hn Hv).
  - intros Hno.
    split; [apply updateNote_miss | apply trashNote_miss];
      intros n Hn Hv; apply Hno; by exists n.
Qed.

(** X23: [PUT] and [DELETE] on a key touch the note under that key only:
    every other note, the users and the key counter are as before. *)
Theorem update_and_trash_frame s i v b now k :
  k ≠ i →
  notes (updateNote i b v s).1 !! k = notes s !! k ∧
  notes (trashNote now i v s).1 !! k = notes s !! k ∧
  users (updateNote i b v s).1 = users s ∧
  users (trashNote now i v s).1 = users s ∧
  next_oid (updateNote i b v s).1 = next_oid s ∧
  next_oid (trashNote now i v s).1 = next_oid s.
Proof.
  intros Hk.
  destruct (updateNote_cases s i v b) as [(n & Hn & Hv) | ->],
           (trashNote_cases s now i v) as [(n' & Hn' & Hv') | ->];
    rewrite ?(updateNote_hit s i v b n Hn Hv),
            ?(trashNote_hit s now i v n' Hn' Hv'); simpl;
    rewrite ?lookup_insert_ne by done; done.
Qed.

End writes.

(** ** The further properties run on the UTC host *)

Lemma demo_db_ok : db_ok demo_db.
Proof. unfold demo_db. apply db_ok_run, db_ok_empty. Qed.

Lemma reachable_usernames_unique_witness :
  Some "alice" ≠ Some "bob".
Proof.
  apply (reachable_usernames_unique (host := utc_host) demo_events 0%N 1%N
           (mkUser (Some "alice") "pw-a$s1") (mkUser (Some "bob") "pw-b$s2"));
    [reflexivity | reflexivity | lia].
Defined.

Lemma user_never_changes_witness :
  users (run (drop 2 demo_events) (run (take 2 demo_events) empty_db)) !! 0%N =
    Some (mkUser (Some "alice") "pw-a$s1").
Proof.
  apply (user_never_changes (host := utc_host) (drop 2 demo_events)
           (run (take 2 demo_events) empty_db)).
  - apply (db_ok_run (take 2 demo_events) empty_db db_ok_empty).
  - reflexivity.
Defined.

Lemma login_after_any_events_witness :
  (login "carol" "pw-c"
     (run [cron_tick 99;
           request 7000 "s4" (POST_register (Some "dave") (Some "pw-d"))]
          (register "s3" (Some "carol") (Some "pw-c") demo_db).1)).2 =
    send 200 (json_token 4%N).
Proof.
  pose proof (login_after_any_events (host := utc_host)
        (@demo_db utc_host) "s3" "carol" "pw-c"
                [cron_tick 99;
                 request 7000 "s4" (POST_register (Some "dave") (Some "pw-d"))]
                utc_host_bcrypt_sound demo_db_ok) as H.
  cbv zeta in H. rewrite H; [reflexivity |].
  apply (bool_decide_unpack
           (map_Forall (λ _ x, username x ≠ Some "carol")
                       (users (@demo_db utc_host)))).
  vm_compute. exact I.
Defined.

Lemma username_stays_taken_witness :
  (register "s9" (Some "alice") (Some "other") (run [cron_tick 5] demo_db)).2 =
    send 400 (text "Username already exists").
Proof.
  exact (f_equal snd
           (username_stays_taken (host := utc_host)
                 [cron_tick 5] (@demo_db utc_host) 0%N
              (mkUser (Some "alice") "pw-a$s1") "s9" "other" demo_db_ok
              eq_refl)).
Defined.

Lemma login_decided_by_stored_hash_witness :
  login "alice" "pw-a" demo_db = (demo_db, send 200 (json_token 0%N)) ∧
  login "alice" "pw-b" demo_db = (demo_db, invalid_credentials).
Proof.
  split.
  - exact (login_decided_by_stored_hash (host := utc_host)
        (@demo_db utc_host) 0%N
             (mkUser (Some "alice") "pw-a$s1") "alice" "pw-a" demo_db_ok
             eq_refl eq_refl).
  - exact (login_decided_by_stored_hash (host := utc_host)
        (@demo_db utc_host) 0%N
             (mkUser (Some "alice") "pw-a$s1") "alice" "pw-b" demo_db_ok
             eq_refl eq_refl).
Defined.

Lemma deleted_note_never_returns_witness :
  notes (run [request 9000 "s" (POST_notes (valid_token 0%N) demo_body)]
             (emptyTrash 0%N demo_db).1) !! 2%N = None.
Proof.
  apply (deleted_note_never_returns (host := utc_host)
           [request 9000 "s" (POST_notes (valid_token 0%N) demo_body)]
           (emptyTrash 0%N (@demo_db utc_host)).1 2%N); reflexivity.
Defined.

Lemma owner_and_createdAt_fixed_witness :
  userId demo_note2 = 0%N ∧ createdAt demo_note2 = 3000.
Proof.
  apply (owner_and_createdAt_fixed (host := utc_host) (drop 4 demo_events)
           (run (take 4 demo_events) empty_db) 2%N
           (mkNote 0%N (Some "A") (Some "x") (Some ["work"]) None (Some false)
                   (Some false) None 3000 None)
           demo_note2); reflexivity.
Defined.

Lemma notes_routes_need_token_witness :
  serve 1 "s" (GET_notes no_token) demo_db =
    (demo_db, send 403 (text "Token is required")) ∧
  serve 1 "s" (DELETE_notes_id invalid_token 2%N) demo_db =
    (demo_db, send 401 (text "Invalid Token")).
Proof.
  split.
  - apply (notes_routes_need_token (host := utc_host)
        1 "s" (GET_notes no_token) (@demo_db utc_host)).
    reflexivity.
  - apply (notes_routes_need_token (host := utc_host)
        1 "s" (DELETE_notes_id invalid_token 2%N)
             (@demo_db utc_host)).
    reflexivity.
Defined.

Lemma active_and_trashed_lists_witness :
  ((2%N, mkNote 0%N None None None None None None (Some 5000) 3000 None)
     ∉ notes_of (getNotes 0%N (updateNote 2%N no_fields 0%N demo_db).1).2) ∧
  ((2%N, mkNote 0%N None None None None None None (Some 5000) 3000 None)
     ∉ notes_of (getTrashed 0%N (updateNote 2%N no_fields 0%N demo_db).1).2).
Proof.
  apply (active_and_trashed_lists (host := utc_host)
        (updateNote 2%N no_fields 0%N (@demo_db utc_host)).1
           0%N 2%N
           (mkNote 0%N None None None None None None (Some 5000) 3000 None)).
  reflexivity.
Defined.

Lemma listByTag_exact_witness :
  (3%N, demo_note3) ∉ notes_of (getByTag "work" 1%N demo_db).2.
Proof.
  apply (listByTag_exact (host := utc_host)
        (@demo_db utc_host) 1%N "work" 3%N demo_note3).
  left. reflexivity.
Defined.

Lemma listReminders_exact_witness :
  (0%N, mkNote 0%N None None (Some []) None (Some false) (Some false) None 1
               (Some 7000))
    ∈ notes_of (getReminders 7000 0%N
                  (createNote 1 (mkBody None None None None (Some 7000) None
                                        None) 0%N empty_db).1).2 ∧
  (0%N, mkNote 0%N None None (Some []) None (Some false) (Some false) None 1
               (Some 7000))
    ∉ notes_of (getReminders 7001 0%N
                  (createNote 1 (mkBody None None None None (Some 7000) None
                                        None) 0%N empty_db).1).2.
Proof.
  split.
  - apply (listReminders_exact (host := utc_host)
             (createNote 1 (mkBody None None None None (Some 7000) None None)
                         0%N empty_db).1 0%N 7000 0%N
             (mkNote 0%N None None (Some []) None (Some false) (Some false)
                     None 1 (Some 7000))); reflexivity.
  - apply (listReminders_exact (host := utc_host)
             (createNote 1 (mkBody None None None None (Some 7000) None None)
                         0%N empty_db).1 0%N 7001 0%N
             (mkNote 0%N None None (Some []) None (Some false) (Some false)
                     None 1 (Some 7000))).
    right. reflexivity.
Defined.

Lemma search_within_active_witness :
  (0%N, mkNote 0%N None None (Some []) None (Some false) (Some false) None 1
               None)
    ∈ notes_of (searchNotes EmptyString 0%N
                  (createNote 1 no_fields 0%N empty_db).1).2 ↔
  (0%N, mkNote 0%N None None (Some []) None (Some false) (Some false) None 1
               None)
    ∈ notes_of (getNotes 0%N (createNote 1 no_fields 0%N empty_db).1).2 ∧
  (None ≠ (None : option string) ∨ None ≠ (None : option string)).
Proof.
  apply (search_within_active (host := utc_host)
        (createNote 1 no_fields 0%N empty_db).1 0%N
           EmptyString 0%N
           (mkNote 0%N None None (Some []) None (Some false) (Some false)
                   None 1 None)).
  intros t. by destruct t.
Defined.

Lemma created_note_is_listed_witness :
  (4%N, mkNote 0%N (Some "A") (Some "x") (Some ["work"]) None (Some false)
               (Some false) None 9000 None)
    ∈ notes_of (getByTag "work" 0%N (createNote 9000 demo_body 0%N demo_db).1).2.
Proof.
  pose proof (created_note_is_listed (host := utc_host)
        (@demo_db utc_host) 9000 demo_body 0%N demo_db_ok)
    as H.
  cbv zeta in H. destruct H as (_ & _ & _ & _ & _ & H & _).
  apply (H "work" ["work"]); [reflexivity | apply list_elem_of_here].
Defined.

Lemma trashed_note_moves_lists_witness :
  (3%N, mkNote 1%N (Some "B") None None None None (Some true) (Some 7000) 3500
               None)
    ∈ notes_of (getTrashed 1%N (trashNote 7000 3%N 1%N demo_db).1).2.
Proof.
  pose proof (trashed_note_moves_lists (host := utc_host)
        (@demo_db utc_host) 7000 3%N 1%N demo_note3
                eq_refl eq_refl) as H.
  cbv zeta in H. exact (proj1 H).
Defined.

Lemma restored_note_is_safe_witness :
  notes (purgeExpiredTrash (9000 + 40 * msPerDay)
           (updateNote 2%N demo_archive 0%N
              (trashNote 9000 2%N 0%N demo_db).1).1) !! 2%N =
    Some (mkNote 0%N (Some "A") (Some "x") (Some ["work"]) None (Some true)
                 (Some false) (Some 9000) 3000 None).
Proof.
  pose proof (restored_note_is_safe (host := utc_host)
        (@demo_db utc_host) 9000 2%N 0%N demo_note2
                demo_archive eq_refl eq_refl eq_refl) as H.
  cbv zeta in H. destruct H as (_ & _ & H & _).
  exact (H (9000 + 40 * msPerDay)).
Defined.

Lemma stale_deletedAt_counts_witness :
  notes (purgeExpiredTrash (9000 + 30 * msPerDay)
           (updateNote 2%N demo_put_trash 0%N
              (updateNote 2%N demo_archive 0%N
                 (trashNote 9000 2%N 0%N demo_db).1).1).1) !! 2%N = None ↔
  9000 ≤ thirtyDaysAgo (9000 + 30 * msPerDay).
Proof.
  pose proof (stale_deletedAt_counts (host := utc_host)
        (@demo_db utc_host) 9000 2%N 0%N demo_note2
                demo_archive demo_put_trash (9000 + 30 * msPerDay)
                eq_refl eq_refl eq_refl) as H.
  cbv zeta in H. exact (proj2 H).
Defined.

Lemma retrash_resets_deletedAt_witness :
  notes (purgeExpiredTrash (9000 + 30 * msPerDay)
           (trashNote 9000 2%N 0%N (trashNote 8000 2%N 0%N demo_db).1).1)
    !! 2%N = None ↔
  9000 ≤ thirtyDaysAgo (9000 + 30 * msPerDay).
Proof.
  pose proof (retrash_resets_deletedAt (host := utc_host)
        (@demo_db utc_host) 8000 9000 2%N 0%N demo_note2
                (9000 + 30 * msPerDay) eq_refl eq_refl) as H.
  cbv zeta in H. exact (proj2 H).
Defined.

Lemma emptied_note_is_gone_witness :
  notes (run [cron_tick 1] (emptyTrash 0%N demo_db).1) !! 2%N = None.
Proof.
  pose proof (emptied_note_is_gone (host := utc_host)
        (@demo_db utc_host) 0%N 2%N demo_note2 [cron_tick 1])
    as H.
  cbv zeta in H. apply H; reflexivity.
Defined.

Lemma update_without_isTrashed_witness :
  (∃ n', notes (updateNote 2%N no_fields 0%N demo_db).1 !! 2%N = Some n' ∧
         isTrashed n' = None) ∧
  (∃ n', notes (@updateNote merge_host 2%N no_fields 0%N
                  (@demo_db merge_host)).1 !! 2%N = Some n' ∧
         isTrashed n' = Some true).
Proof.
  split.
  - pose proof (update_without_isTrashed (host := utc_host)
                  (@demo_db utc_host) 2%N 0%N demo_note2 no_fields
                  eq_refl eq_refl eq_refl) as H.
    cbv zeta in H. destruct H as [H _].
    destruct (H eq_refl) as (n' & Hn' & Ht' & _). by exists n'.
  - pose proof (update_without_isTrashed (host := merge_host)
                  (@demo_db merge_host) 2%N 0%N demo_note2 no_fields
                  eq_refl eq_refl eq_refl) as H.
    cbv zeta in H. destruct H as [_ H].
    destruct (H eq_refl) as (n' & Hn' & Ht' & _). by exists n'.
Defined.

Lemma update_and_trash_answers_witness :
  updateNote 7%N no_fields 0%N demo_db = (demo_db, note_not_found) ∧
  trashNote 9000 7%N 0%N demo_db = (demo_db, note_not_found).
Proof.
  apply (update_and_trash_answers (host := utc_host)
        (@demo_db utc_host) 7%N 0%N no_fields 9000).
  intros (n & Hn & _). vm_compute in Hn. discriminate Hn.
Defined.

Lemma update_and_trash_frame_witness :
  notes (updateNote 2%N no_fields 0%N demo_db).1 !! 3%N = notes demo_db !! 3%N.
Proof.
  pose proof (update_and_trash_frame (host := utc_host)
        (@demo_db utc_host) 2%N 0%N no_fields 9000 3%N
                ltac:(lia)) as H.
  exact (proj1 H).
Defined.
